(** * Derived metrics of the recovery companion: streak, averages,
      milestones and goal progress

    A shallow embedding of the computations found in
    - the home page (its Dashboard component: [fetchCheckIns],
      [fetchStats], [calculateStreak]),
    - [GoalsMilestones.tsx] ([MILESTONE_TYPES], [checkMilestones],
      [getGoalProgress], [getDaysUntilTarget]),
    - [ProgressCharts.tsx] ([fetchData], the summary cards, the averages of
      [getInsights]),
    and, beyond these, of [toggleGoalCompletion], [deleteGoal] and the
    figures of the goals page, [calculateTriggerStats], the trigger chart
    and summary, [getInsights], the check-in button of the dashboard and
    [toggleTrigger] of [DailyCheckIn.tsx],
    followed by the properties proved about them.

    Conventions.
    - A time value ([Date.prototype.getTime]) is an integer number of
      milliseconds, a [Z].
    - A date column of the store ([date], [target_date],
      [recovery_start_date]) holds a date-only string [YYYY-MM-DD]; it is
      represented by its day number (days since the epoch), and
      [new Date(s)] of such a string is UTC midnight of that day
      ([Date_parse]).
    - JavaScript numbers that are integers by construction (counts, table
      thresholds, results of [Math.floor] and [Math.ceil]) are [Z].
      Non-integer numbers are [JS.number]: an exact rational, the two
      infinities or NaN.  Finite arithmetic is exact, the rounding of
      binary64 is not modelled; the zero of the model is the positive zero
      (every divisor below is a difference of integers or a length, for
      which JavaScript yields [+0]).  The success rate of the goals page,
      where the binary64 rounding of a quotient decides the integer shown,
      is computed on binary64 numbers ([Binary64]).
    - The local zone has a fixed offset [tz] where only the calendar day
      of an instant is needed; where [setDate] steps over days in local
      time and the instant reached is used, a zone is a [Zone] with its
      daylight-saving rules. *)

From Stdlib Require Import ZArith QArith Qround List String Ascii Bool Lia Lqa.
From Stdlib Require Import DecimalString Sorted Permutation.
From Stdlib Require Floats.
Import ListNotations.

Local Open Scope Z_scope.

(* ================================================================== *)
(** ** JavaScript numbers *)

Module JS.

Inductive number : Type :=
| Fin (q : Q)
| PosInf
| NegInf
| NaN.

Definition of_Z (z : Z) : number := Fin (inject_Z z).

(** Equality of numbers as values: rationals up to [Qeq]. *)
Definition num_eq (a b : number) : Prop :=
  match a, b with
  | Fin p, Fin q => Qeq p q
  | PosInf, PosInf => True
  | NegInf, NegInf => True
  | NaN, NaN => True
  | _, _ => False
  end.

(** [a / b].  A non-zero finite number over zero is an infinity of the
    sign of the dividend, zero over zero is NaN. *)
Definition div (a b : number) : number :=
  match a, b with
  | NaN, _ => NaN
  | _, NaN => NaN
  | Fin p, Fin q =>
      if Qeq_bool q 0 then
        if Qeq_bool p 0 then NaN
        else if Qle_bool 0 p then PosInf else NegInf
      else Fin (p / q)
  | Fin _, _ => Fin 0
  | PosInf, Fin q => if Qle_bool 0 q then PosInf else NegInf
  | NegInf, Fin q => if Qle_bool 0 q then NegInf else PosInf
  | _, _ => NaN
  end.

(** [a * b]. *)
Definition mul (a b : number) : number :=
  match a, b with
  | NaN, _ => NaN
  | _, NaN => NaN
  | Fin p, Fin q => Fin (p * q)
  | Fin p, PosInf | PosInf, Fin p =>
      if Qeq_bool p 0 then NaN else if Qle_bool 0 p then PosInf else NegInf
  | Fin p, NegInf | NegInf, Fin p =>
      if Qeq_bool p 0 then NaN else if Qle_bool 0 p then NegInf else PosInf
  | PosInf, PosInf | NegInf, NegInf => PosInf
  | _, _ => NegInf
  end.

(** [a < b]; false as soon as one side is NaN. *)
Definition ltb (a b : number) : bool :=
  match a, b with
  | NaN, _ | _, NaN => false
  | Fin p, Fin q => negb (Qle_bool q p)
  | NegInf, NegInf => false
  | NegInf, _ => true
  | _, NegInf => false
  | PosInf, _ => false
  | Fin _, PosInf => true
  end.

Definition isNaN (a : number) : bool :=
  match a with NaN => true | _ => false end.

(** [Math.max(a, b)] and [Math.min(a, b)]: NaN when an argument is NaN. *)
Definition Math_max (a b : number) : number :=
  if isNaN a || isNaN b then NaN else if ltb a b then b else a.

Definition Math_min (a b : number) : number :=
  if isNaN a || isNaN b then NaN else if ltb b a then b else a.

(** [Math.round(a)]: the nearest integer, halves towards +Infinity. *)
Definition Math_round (a : number) : number :=
  match a with
  | Fin q => of_Z (Qfloor (q + (1 # 2)))
  | _ => a
  end.

(** [Math.floor(a / b)] and [Math.ceil(a / b)] for integers [a] and a
    positive integer [b] (see [floor_div_Qfloor], [ceil_div_Qceiling]). *)
Definition floor_div (a b : Z) : Z := a / b.
Definition ceil_div (a b : Z) : Z := - ((- a) / b).

(** [x || 0] for a nullable number column. *)
Definition or0 (x : option Z) : Z :=
  match x with Some v => v | None => 0 end.

(** The decimal rendering of an integer in a template literal. *)
Definition Number_toString (z : Z) : string :=
  NilZero.string_of_int (Z.to_int z).

End JS.

Notation "a =j= b" := (JS.num_eq a b) (at level 70, no associativity).

(* ================================================================== *)
(** ** Dates *)

Definition MS_PER_DAY : Z := 1000 * 60 * 60 * 24.

(** [new Date(s).getTime()] for the date-only string of day number [d]. *)
Definition Date_parse (d : Z) : Z := d * MS_PER_DAY.

(** [t.toISOString().split('T')[0]]: the UTC day of a time value. *)
Definition toISODate (t : Z) : Z := t / MS_PER_DAY.

(** [t.toDateString()]: the local calendar day of a time value, in a zone
    [tz] milliseconds east of UTC (a fixed offset; daylight saving is not
    modelled).  The string itself is a one-to-one rendering of that day. *)
Definition toDateString (tz t : Z) : Z := (t + tz) / MS_PER_DAY.

(** [d.setDate(d.getDate() - n)] in a zone of fixed offset: the same local
    clock time [n] calendar days earlier is [n] times 24 hours earlier.
    This is the instance [fixed_zone] of [setDate_minus_in] below
    ([setDate_minus_fixed_zone]); it is used where the zone has a fixed
    offset or where an hour more or less does not change the day. *)
Definition setDate_minus (t n : Z) : Z := t - n * MS_PER_DAY.

(** A time zone, with its daylight-saving rules, as ECMAScript has it: the
    offset [LocalTZA(t, isUTC)] in milliseconds east of UTC, in force at
    the UTC instant [t] when [isUTC] is true and at the local time [t]
    when it is false (a local time that a switch skips is read with the
    offset before the switch). *)
Record Zone : Type := {
  LocalTZA : Z -> bool -> Z
}.

(** [LocalTime(t)] and [UTC(t)] of ECMAScript. *)
Definition LocalTime (zone : Zone) (t : Z) : Z := t + LocalTZA zone t true.
Definition UTC (zone : Zone) (t : Z) : Z := t - LocalTZA zone t false.

(** [d.setDate(d.getDate() - n)] in any zone: the local time of [d] is
    taken, its date is moved back by [n] calendar days with the clock
    fields kept ([MakeDate(MakeDay(year, month, date - n),
    TimeWithinDay)] is the local time minus [n] days), and the result is
    read as a local time.  Time values stay within the range of [Date]. *)
Definition setDate_minus_in (zone : Zone) (t n : Z) : Z :=
  UTC zone (LocalTime zone t - n * MS_PER_DAY).

(** A zone without daylight saving, [tz] milliseconds east of UTC. *)
Definition fixed_zone (tz : Z) : Zone := {| LocalTZA := fun _ _ => tz |}.

(** The value of [ms / (1000 * 60 * 60 * 24)] for an integer [ms]. *)
Definition in_days (ms : Z) : Q := ms * 1 # 86400000.

(* ================================================================== *)
(** ** Rows of the store *)

Record CheckIn : Type := {
  date : Z;
  mood_score : option Z;
  energy_level : option Z;
  sleep_quality : option Z;
  trigger_tags : list string
}.

(** [target_date] and [completed_date] are nullable date columns;
    [created_at] is a timestamp, represented by its time value. *)
Record Goal : Type := {
  goal_title : string;
  target_date : option Z;
  is_completed : bool;
  completed_date : option Z;
  priority : Z;
  created_at : Z
}.

Record Milestone : Type := {
  milestone_type : string;
  milestone_value : Z;
  achieved_date : option Z;
  title : option string;
  description : option string
}.

Record Profile : Type := {
  recovery_start_date : option Z
}.

(* ================================================================== *)
(** ** GoalsMilestones.tsx *)

Module GoalsMilestones.

Import JS.
Local Open Scope string_scope.

Record MilestoneType : Type := {
  type : string;
  label : string;
  values : list Z
}.

Definition MILESTONE_TYPES : list MilestoneType :=
  [ {| type := "days_clean"; label := "Days Clean";
       values := [1; 7; 30; 60; 90; 180; 365; 730] |};
    {| type := "meetings_attended"; label := "Meetings Attended";
       values := [1; 5; 10; 25; 50; 100] |};
    {| type := "check_ins_completed"; label := "Check-ins Completed";
       values := [7; 30; 50; 100] |};
    {| type := "goals_achieved"; label := "Goals Achieved";
       values := [1; 3; 5; 10] |} ].

(** [MILESTONE_TYPES.find(m => m.type === ty)?.values || []] *)
Definition thresholds (ty : string) : list Z :=
  match find (fun m => String.eqb (type m) ty) MILESTONE_TYPES with
  | Some m => values m
  | None => []
  end.

(** The component state the evaluation reads and writes. *)
Record State : Type := {
  goals : list Goal;
  milestones : list Milestone;
  showCelebration : option Milestone
}.

(** Whether [milestones.find(m => m.milestone_type === ty &&
    m.milestone_value === milestone)] finds a record. *)
Definition existing (seen : list Milestone) (ty : string) (milestone : Z)
  : bool :=
  match find (fun m => String.eqb (milestone_type m) ty
                       && (milestone_value m =? milestone)%Z) seen with
  | Some _ => true
  | None => false
  end.

(** The rows handed to [insert]. *)
Definition daysCleanRow (now milestone : Z) : Milestone :=
  {| milestone_type := "days_clean";
     milestone_value := milestone;
     achieved_date := Some (toISODate now);
     title := Some (Number_toString milestone ++ " Days Clean");
     description :=
       Some ("Congratulations on reaching " ++ Number_toString milestone
             ++ " days of sobriety!") |}.

Definition checkInsRow (now milestone : Z) : Milestone :=
  {| milestone_type := "check_ins_completed";
     milestone_value := milestone;
     achieved_date := Some (toISODate now);
     title := Some (Number_toString milestone ++ " Check-ins Completed");
     description :=
       Some ("Great job on completing " ++ Number_toString milestone
             ++ " daily check-ins!") |}.

(** The store's answer to an insert: whether [data && !error] holds.  The
    row it returns is the row inserted (the store adds an id and a
    creation time, which the evaluation never reads). *)
Definition Store : Type := Milestone -> bool.

(** What one evaluation has done so far: the rows handed to [insert], in
    order, and the component state as the [set...] calls leave it. *)
Record Pass : Type := {
  requests : list Milestone;
  after : State
}.

(** One [insert(...).select().single()] followed by
    [if (data && !error) { setMilestones(prev => [data, ...prev]); ... }];
    only the days-clean loop also calls [setShowCelebration(data)]. *)
Definition insertMilestone (store : Store) (celebrate : bool)
    (row : Milestone) (p : Pass) : Pass :=
  let st := after p in
  {| requests := requests p ++ [row];
     after :=
       if store row then
         {| goals := goals st;
            milestones := row :: milestones st;
            showCelebration :=
              if celebrate then Some row else showCelebration st |}
       else st |}.

(** One [for (const milestone of table)] loop.  [seen] is the [milestones]
    binding of the render the evaluation was started from: the loop's
    [find] reads it, and no [setMilestones] of the pass changes it. *)
Definition evaluate (store : Store) (seen : list Milestone) (ty : string)
    (row : Z -> Milestone) (celebrate : bool) (counter : Z)
    (table : list Z) (p : Pass) : Pass :=
  fold_left
    (fun p milestone =>
       if (milestone <=? counter)%Z then
         if negb (existing seen ty milestone) then
           insertMilestone store celebrate (row milestone) p
         else p
       else p)
    table p.

(** [checkMilestones], against the fetched profile and the fetched count
    of check-ins ([None]: the fetch gave null).  The evaluation is taken
    at one instant [now]: the [new Date()] of the first loop and those of
    the second are the same time. *)
Definition checkMilestones (store : Store) (now : Z)
    (profile : option Profile) (checkInsCount : option Z) (st : State)
  : Pass :=
  let p0 := {| requests := []; after := st |} in
  let p1 :=
    match profile with
    | Some {| recovery_start_date := Some d |} =>
        let recoveryStart := Date_parse d in
        let today := now in
        let daysClean := floor_div (today - recoveryStart) MS_PER_DAY in
        let daysCleanMilestones := thresholds "days_clean" in
        evaluate store (milestones st) "days_clean" (daysCleanRow today)
                 true daysClean daysCleanMilestones p0
    | _ => p0
    end in
  let checkInMilestones := thresholds "check_ins_completed" in
  evaluate store (milestones st) "check_ins_completed" (checkInsRow now)
           false (or0 checkInsCount) checkInMilestones p1.

(** [goals.filter(g => g.is_completed).length], the "Completed" figure. *)
Definition completedGoals (gs : list Goal) : Z :=
  Z.of_nat (List.length (filter is_completed gs)).

Definition getGoalProgress (now : Z) (goal : Goal) : number :=
  if is_completed goal then of_Z 100
  else
    match target_date goal with
    | None => of_Z 0
    | Some d =>
        let today := now in
        let target := Date_parse d in
        let created := created_at goal in
        let totalDays := div (of_Z (target - created)) (of_Z MS_PER_DAY) in
        let elapsedDays := div (of_Z (today - created)) (of_Z MS_PER_DAY) in
        Math_min (of_Z 100)
                 (Math_max (of_Z 0) (mul (div elapsedDays totalDays) (of_Z 100)))
    end.

Definition getDaysUntilTarget (now targetDate : Z) : string :=
  let today := now in
  let target := Date_parse targetDate in
  let diffTime := (target - today)%Z in
  let diffDays := ceil_div diffTime MS_PER_DAY in
  if (diffDays <? 0)%Z then Number_toString (Z.abs diffDays) ++ " days overdue"
  else if (diffDays =? 0)%Z then "Due today"
  else if (diffDays =? 1)%Z then "1 day left"
  else Number_toString diffDays ++ " days left".

End GoalsMilestones.

(* ================================================================== *)
(** ** Queries on the check-in table *)

(** [.order('date', { ascending })] *)
Fixpoint insert_by_date (ascending : bool) (c : CheckIn) (l : list CheckIn)
  : list CheckIn :=
  match l with
  | [] => [c]
  | x :: rest =>
      if (if ascending then date c <=? date x else date x <=? date c)
      then c :: l
      else x :: insert_by_date ascending c rest
  end.

Definition order_by_date (ascending : bool) (table : list CheckIn)
  : list CheckIn :=
  fold_right (insert_by_date ascending) [] table.

(** [.gte('date', day)] *)
Definition gte_date (day : Z) (table : list CheckIn) : list CheckIn :=
  filter (fun c => day <=? date c) table.

(** [rows.reduce((sum, item) => sum + (item.field || 0), 0)] *)
Definition sum_of (field : CheckIn -> option Z) (rows : list CheckIn) : Z :=
  fold_left (fun sum item => sum + JS.or0 (field item)) rows 0.

(* ================================================================== *)
(** ** The home page: Dashboard *)

Module Dashboard.

Import JS.

Record Stats : Type := {
  totalCheckIns : Z;
  avgMood : number;
  streak : Z
}.

Record State : Type := {
  checkIns : list CheckIn;
  stats : Stats
}.

(** The two [useState] initial values. *)
Definition initial : State :=
  {| checkIns := [];
     stats := {| totalCheckIns := 0; avgMood := of_Z 0; streak := 0 |} |}.

(** The rows [fetchCheckIns] stores with [setCheckIns]: the query ordered
    by date, most recent first, limited to 7. *)
Definition fetchCheckIns (table : list CheckIn) : list CheckIn :=
  firstn 7 (order_by_date false table).

(** The [for] loop of [calculateStreak]: [checkInData] is what is left of
    the array from index [i] on. *)
Fixpoint streak_loop (tz today : Z) (checkInData : list CheckIn)
    (i streak : Z) : Z :=
  match checkInData with
  | [] => streak
  | c :: rest =>
      let checkInDate := Date_parse (date c) in
      let expectedDate := setDate_minus today i in
      if toDateString tz checkInDate =? toDateString tz expectedDate
      then streak_loop tz today rest (i + 1) (streak + 1)
      else streak
  end.

Definition calculateStreak (tz now : Z) (checkInData : list CheckIn) : Z :=
  match checkInData with
  | [] => 0
  | _ => streak_loop tz now checkInData 0 0
  end.

(** The [avgMood] constant of [fetchStats]; [moodData] is [None] when the
    query gave null. *)
Definition fetchStats_avgMood (moodData : option (list CheckIn)) : number :=
  match moodData with
  | Some ((_ :: _) as rows) =>
      div (of_Z (sum_of mood_score rows)) (of_Z (Z.of_nat (List.length rows)))
  | _ => of_Z 0
  end.

(** The record [fetchStats] stores with [setStats], from the answers of
    its two queries and the [checkIns] binding of its closure. *)
Definition fetchStats (tz now : Z) (count : option Z)
    (moodData : option (list CheckIn)) (closure_checkIns : list CheckIn)
  : Stats :=
  let avg := fetchStats_avgMood moodData in
  {| totalCheckIns := or0 count;
     avgMood := div (Math_round (mul avg (of_Z 10))) (of_Z 10);
     streak := calculateStreak tz now closure_checkIns |}.

(** The mood query of [fetchStats]: rows dated within the last 30 days. *)
Definition moodQuery (now : Z) (table : list CheckIn) : list CheckIn :=
  gte_date (toISODate (now - 30 * 24 * 60 * 60 * 1000)) table.

(** The state after the mount effect [useEffect(() => { fetchCheckIns();
    fetchStats(); }, [])].  The effect runs once, with the functions of the
    first render: the [checkIns] that [fetchStats] passes to
    [calculateStreak] is the binding of that render, the initial value. *)
Definition mount (tz now : Z) (table : list CheckIn) : State :=
  {| checkIns := fetchCheckIns table;
     stats := fetchStats tz now (Some (Z.of_nat (List.length table)))
                         (Some (moodQuery now table)) (checkIns initial) |}.

End Dashboard.

(* ================================================================== *)
(** ** ProgressCharts.tsx *)

Module ProgressCharts.

Import JS.

(** The state [timeRange : '7' | '30' | '90'] and [parseInt] of it. *)
Inductive TimeRange : Type := Range7 | Range30 | Range90.

Definition parseInt (timeRange : TimeRange) : Z :=
  match timeRange with
  | Range7 => 7
  | Range30 => 30
  | Range90 => 90
  end.

(** The rows [fetchData] stores with [setCheckIns]. *)
Definition fetchData (now : Z) (timeRange : TimeRange)
    (table : list CheckIn) : list CheckIn :=
  let daysAgo := setDate_minus now (parseInt timeRange) in
  order_by_date true (gte_date (toISODate daysAgo) table).

(** [checkIns.reduce(...) / checkIns.length], the number the Average Mood
    card formats with [toFixed(1)]. *)
Definition averageMood (checkIns : list CheckIn) : number :=
  div (of_Z (sum_of mood_score checkIns)) (of_Z (Z.of_nat (List.length checkIns))).

(** [Math.round((checkIns.length / parseInt(timeRange)) * 100)] *)
Definition consistency (checkIns : list CheckIn) (timeRange : TimeRange)
  : number :=
  Math_round
    (mul (div (of_Z (Z.of_nat (List.length checkIns))) (of_Z (parseInt timeRange)))
         (of_Z 100)).

Record Summary : Type := {
  summary_averageMood : number;
  summary_consistency : number
}.

(** The summary cards are rendered in the branch [checkIns.length !== 0];
    for an empty list the component shows "No Data Yet" and no card. *)
Definition summary (checkIns : list CheckIn) (timeRange : TimeRange)
  : option Summary :=
  match checkIns with
  | [] => None
  | _ => Some {| summary_averageMood := averageMood checkIns;
                 summary_consistency := consistency checkIns timeRange |}
  end.

(** [a.slice(-n)] *)
Definition slice_last {A : Type} (n : nat) (a : list A) : list A :=
  skipn (List.length a - n) a.

(** The averages of [getInsights], which returns before computing them
    when [checkIns] is empty. *)
Definition recentMoods (checkIns : list CheckIn) : list Z :=
  map (fun c => or0 (mood_score c)) (slice_last 7 checkIns).

Definition avgRecentMood (checkIns : list CheckIn) : number :=
  div (of_Z (fold_left Z.add (recentMoods checkIns) 0))
      (of_Z (Z.of_nat (List.length (recentMoods checkIns)))).

Definition energyTrend (checkIns : list CheckIn) : list Z :=
  map (fun c => or0 (energy_level c)) (slice_last 5 checkIns).

Definition avgEnergy (checkIns : list CheckIn) : number :=
  div (of_Z (fold_left Z.add (energyTrend checkIns) 0))
      (of_Z (Z.of_nat (List.length (energyTrend checkIns)))).

End ProgressCharts.

(** [fetchData] in a zone with daylight saving: [daysAgo] is stepped back
    by local calendar days.  In a zone of fixed offset this is
    [ProgressCharts.fetchData]. *)
Module Zoned.

Import ProgressCharts.

Definition fetchData (zone : Zone) (now : Z) (timeRange : TimeRange)
    (table : list CheckIn) : list CheckIn :=
  let daysAgo := setDate_minus_in zone now (parseInt timeRange) in
  order_by_date true (gte_date (toISODate daysAgo) table).

End Zoned.

(* ================================================================== *)
(** ** The rules of the specification, in its words

    These are compared below with the functions taken from the code. *)

Module Rules.

Import JS.

(** [clamp(x, lo, hi)] *)
Definition clamp (x lo hi : number) : number :=
  if ltb x lo then lo else if ltb hi x then hi else x.

(** "If is_completed, return 100.  If target_date is absent, return 0.
    Otherwise compute elapsed = (today - created_at) in days, total =
    (target_date - created_at) in days, and return
    clamp(elapsed / total * 100, 0, 100)." *)
Definition progress_rule (now : Z) (goal : Goal) : number :=
  if is_completed goal then of_Z 100
  else
    match target_date goal with
    | None => of_Z 0
    | Some d =>
        let elapsed := div (of_Z (now - created_at goal)) (of_Z MS_PER_DAY) in
        let total :=
          div (of_Z (Date_parse d - created_at goal)) (of_Z MS_PER_DAY) in
        clamp (mul (div elapsed total) (of_Z 100)) (of_Z 0) (of_Z 100)
    end.

(** "sum(mood_score, treating missing as 0)" *)
Fixpoint total_of (field : CheckIn -> option Z) (rows : list CheckIn) : Z :=
  match rows with
  | [] => 0
  | r :: rest => or0 (field r) + total_of field rest
  end.

(** "sum / count(records); 0 when count is 0" *)
Definition average_rule (field : CheckIn -> option Z) (rows : list CheckIn)
  : number :=
  match rows with
  | [] => of_Z 0
  | _ => Fin (inject_Z (total_of field rows)
              / inject_Z (Z.of_nat (List.length rows)))
  end.

(** "negative values reported as N days overdue, zero as due today, one
    as 1 day left, others as N days left" *)
Definition status_rule (n : Z) : string :=
  if n <? 0 then (Number_toString (Z.abs n) ++ " days overdue")%string
  else if n =? 0 then "Due today"%string
  else if n =? 1 then "1 day left"%string
  else (Number_toString n ++ " days left")%string.

(** The thresholds of a table that a counter has reached and that no
    existing milestone of the type records. *)
Definition newly_earned (seen : list Milestone) (ty : string) (counter : Z)
    (table : list Z) : list Z :=
  filter (fun v => (v <=? counter)
                   && negb (existsb (fun m => String.eqb (milestone_type m) ty
                                              && (milestone_value m =? v))
                                    seen))
         table.

(** "days-clean (derived as floor((today - recovery_start_date) in days),
    only if recovery_start_date is set)" *)
Definition daysClean (now : Z) (profile : option Profile) : option Z :=
  match profile with
  | Some {| recovery_start_date := Some d |} =>
      Some (floor_div (now - Date_parse d) MS_PER_DAY)
  | _ => None
  end.

(** The thresholds to emit, table by table: "for each threshold in each
    table, if the current counter >= threshold AND no existing milestone
    record matches (type, threshold)". *)
Definition earned_days_clean (now : Z) (profile : option Profile)
    (seen : list Milestone) : list Z :=
  match daysClean now profile with
  | Some n => newly_earned seen "days_clean" n [1; 7; 30; 60; 90; 180; 365; 730]
  | None => []
  end.

Definition earned_check_ins (count : option Z) (seen : list Milestone)
  : list Z :=
  newly_earned seen "check_ins_completed" (or0 count) [7; 30; 50; 100].

(** The (type, threshold) pair of a milestone record. *)
Definition key (m : Milestone) : string * Z :=
  (milestone_type m, milestone_value m).

(** "the i-th record's date equals today - i days (day equality, not
    timestamp)": [today] is the current calendar day, the record's date is
    the day its [date] column names. *)
Definition on_expected_day (today : Z) (i : nat) (c : CheckIn) : Prop :=
  date c = today - Z.of_nat i.

(** [k] is the length of the unbroken prefix: the first [k] records are on
    their expected days, and the next one, if there is one, is not. *)
Definition unbroken_prefix (today : Z) (data : list CheckIn) (k : nat)
  : Prop :=
  (k <= List.length data)%nat
  /\ (forall i c, (i < k)%nat -> nth_error data i = Some c ->
                  on_expected_day today i c)
  /\ (forall c, nth_error data k = Some c -> ~ on_expected_day today k c).

End Rules.

(* ================================================================== *)
(** ** Sample rows *)

Definition goal_of (created : Z) (target : option Z) (completed : bool)
  : Goal :=
  {| goal_title := "goal"; target_date := target; is_completed := completed;
     completed_date := None; priority := 3; created_at := created |}.

Definition checkin_on (d : Z) : CheckIn :=
  {| date := d; mood_score := None; energy_level := None;
     sleep_quality := None; trigger_tags := [] |}.

Definition checkin_with (mood energy : Z) : CheckIn :=
  {| date := 0; mood_score := Some mood; energy_level := Some energy;
     sleep_quality := None; trigger_tags := [] |}.

(** Six records, the oldest with energy 5, the five most recent with 1. *)
Definition six_days : list CheckIn :=
  [checkin_with 5 5; checkin_with 5 1; checkin_with 5 1;
   checkin_with 5 1; checkin_with 5 1; checkin_with 5 1].

(** One record a day from day 3 to day 10. *)
Definition eight_days : list CheckIn :=
  map checkin_on [3; 4; 5; 6; 7; 8; 9; 10].

(** Ten records, one a day, from day 91 to day 100, most recent first. *)
Definition ten_days : list CheckIn :=
  map checkin_on [100; 99; 98; 97; 96; 95; 94; 93; 92; 91].

Definition no_milestones : GoalsMilestones.State :=
  {| GoalsMilestones.goals := [];
     GoalsMilestones.milestones := [];
     GoalsMilestones.showCelebration := None |}.

(** A state whose only milestone is the 7-days-clean one. *)
Definition with_seven_days : GoalsMilestones.State :=
  {| GoalsMilestones.goals := [];
     GoalsMilestones.milestones := [GoalsMilestones.daysCleanRow 0 7];
     GoalsMilestones.showCelebration := None |}.

(** A state with one completed goal and no milestone. *)
Definition one_goal_done : GoalsMilestones.State :=
  {| GoalsMilestones.goals := [goal_of 0 None true];
     GoalsMilestones.milestones := [];
     GoalsMilestones.showCelebration := None |}.

Definition accept_all : GoalsMilestones.Store := fun _ => true.

(* ================================================================== *)
(** ** Numbers as binary64, where the rounding of a quotient matters *)

Module Binary64.

Definition float : Set := PrimFloat.float.

(** The Number of a count: exact for an integer from 0 to 2^53. *)
Definition of_Z (z : Z) : float := PrimFloat.of_uint63 (Uint63.of_Z z).

(** [a / b] and [a * b], rounded to the nearest binary64 number. *)
Definition div (a b : float) : float := PrimFloat.div a b.
Definition mul (a b : float) : float := PrimFloat.mul a b.

(** [Math.round(x)] of a finite [x]: the floor of the exact value of
    [x + 1/2].  With [x = v / 2^k] that is the floor of
    [(2 v + 2^k) / 2^(k+1)], a shift to the right.  NaN and the infinities
    have no integer. *)
Definition Math_round (x : float) : option Z :=
  match FloatOps.Prim2SF x with
  | SpecFloat.S754_zero _ => Some 0
  | SpecFloat.S754_finite s m e =>
      let v := if s then Z.neg m else Z.pos m in
      Some (if 0 <=? e then Z.shiftl v e
            else Z.shiftr (2 * v + Z.shiftl 1 (- e)) (- e + 1))
  | _ => None
  end.

End Binary64.

(* ================================================================== *)
(** ** More of GoalsMilestones.tsx: the list of goals *)

Module GoalsList.

Import JS.

(** A goal as the component holds it: the row with its [id]. *)
Record Row : Type := {
  goal_id : string;
  fields : Goal
}.

Record State : Type := {
  goals : list Row;
  showCelebration : option Row
}.

(** [{ ...g, is_completed: isCompleting, completed_date: completedDate }] *)
Definition set_completion (g : Row) (isCompleting : bool)
    (completedDate : option Z) : Row :=
  {| goal_id := goal_id g;
     fields :=
       {| goal_title := goal_title (fields g);
          target_date := target_date (fields g);
          is_completed := isCompleting;
          completed_date := completedDate;
          priority := priority (fields g);
          created_at := created_at (fields g) |} |}.

(** [toggleGoalCompletion(goal)]; [update_ok] says that the store's update
    returned no error. *)
Definition toggleGoalCompletion (update_ok : bool) (now : Z) (goal : Row)
    (st : State) : State :=
  let isCompleting := negb (is_completed (fields goal)) in
  let completedDate := if isCompleting then Some (toISODate now) else None in
  if update_ok then
    {| goals :=
         map (fun g => if String.eqb (goal_id g) (goal_id goal)
                       then set_completion g isCompleting completedDate
                       else g)
             (goals st);
       showCelebration :=
         if isCompleting then Some goal else showCelebration st |}
  else st.

(** [deleteGoal(goalId)]; [confirmed] is the answer to [confirm(...)],
    [delete_ok] says that the store's delete returned no error. *)
Definition deleteGoal (confirmed delete_ok : bool) (goalId : string)
    (st : State) : State :=
  if confirmed then
    if delete_ok then
      {| goals := filter (fun g => negb (String.eqb (goal_id g) goalId))
                         (goals st);
         showCelebration := showCelebration st |}
    else st
  else st.

(** The three figures above the list: [goals.filter(g =>
    !g.is_completed).length], [goals.filter(g => g.is_completed).length]
    and the success rate. *)
Definition activeCount (gs : list Row) : Z :=
  Z.of_nat (List.length
              (filter (fun g => negb (is_completed (fields g))) gs)).

Definition completedCount (gs : list Row) : Z :=
  Z.of_nat (List.length (filter (fun g => is_completed (fields g)) gs)).

(** [goals.length > 0 ? Math.round((completed / goals.length) * 100) : 0]:
    the quotient and the product are binary64 operations, and the result
    is an integer. *)
Definition successRate (gs : list Row) : option Z :=
  if 0 <? Z.of_nat (List.length gs) then
    Binary64.Math_round
      (Binary64.mul
         (Binary64.div (Binary64.of_Z (completedCount gs))
                       (Binary64.of_Z (Z.of_nat (List.length gs))))
         (Binary64.of_Z 100))
  else Some 0.

End GoalsList.

(* ================================================================== *)
(** ** More of ProgressCharts.tsx: triggers and insights *)

Module Triggers.

Import JS.

(** The object [{ [key: string]: number }]: its own properties in
    insertion order.  Keys are trigger names; none is an integer index or
    a name inherited from [Object.prototype]. *)
Definition Counts : Type := list (string * Z).

(** [stats[k]] *)
Fixpoint lookup (k : string) (stats : Counts) : option Z :=
  match stats with
  | [] => None
  | (k', v) :: rest => if String.eqb k' k then Some v else lookup k rest
  end.

(** [stats[k] = v]: in place for a key the object has, at the end for a
    new one. *)
Fixpoint assign (k : string) (v : Z) (stats : Counts) : Counts :=
  match stats with
  | [] => [(k, v)]
  | (k', v') :: rest =>
      if String.eqb k' k then (k', v) :: rest
      else (k', v') :: assign k v rest
  end.

(** The object [calculateTriggerStats] stores with [setTriggerStats].  A
    check-in whose [trigger_tags] is null adds nothing, as one with no
    tag. *)
Definition calculateTriggerStats (data : list CheckIn) : Counts :=
  fold_left
    (fun stats checkIn =>
       fold_left
         (fun stats trigger =>
            assign trigger (or0 (lookup trigger stats) + 1) stats)
         (trigger_tags checkIn) stats)
    data [].

(** [Object.keys], [Object.values] *)
Definition keys (stats : Counts) : list string := map fst stats.
Definition values (stats : Counts) : list Z := map snd stats.

(** The labels and the data of the Common Triggers chart. *)
Definition chartLabels (stats : Counts) : list string :=
  firstn 8 (keys stats).
Definition chartData (stats : Counts) : list Z :=
  firstn 8 (values stats).

(** [Object.values(triggerStats).reduce((sum, count) => sum + count, 0)],
    the Total Triggers card. *)
Definition totalTriggers (stats : Counts) : Z :=
  fold_left (fun sum count => sum + count) (values stats) 0.

(** [.sort(([,a], [,b]) => b - a)]: by count, largest first, entries of
    equal count in their former order. *)
Fixpoint insert_by_count (e : string * Z) (l : Counts) : Counts :=
  match l with
  | [] => [e]
  | x :: rest =>
      if snd x <=? snd e then e :: l else x :: insert_by_count e rest
  end.

Definition sort_by_count (stats : Counts) : Counts :=
  fold_right insert_by_count [] stats.

(** The rows of the Trigger Summary:
    [Object.entries(triggerStats).sort(...).slice(0, 8)]. *)
Definition triggerSummary (stats : Counts) : Counts :=
  firstn 8 (sort_by_count stats).

(** [a >= b] and [a > b] on numbers; false as soon as one side is NaN. *)
Definition geb (a b : number) : bool :=
  match a, b with
  | NaN, _ | _, NaN => false
  | _, _ => negb (ltb a b)
  end.

(** [triggerStats[a] > triggerStats[b]] *)
Definition more (stats : Counts) (a b : string) : bool :=
  match lookup a stats, lookup b stats with
  | Some x, Some y => y <? x
  | _, _ => false
  end.

(** [Object.keys(triggerStats).reduce((a, b) => triggerStats[a] >
    triggerStats[b] ? a : b, Object.keys(triggerStats)[0])]; without key
    the result is the initial value, undefined. *)
Definition topTrigger (stats : Counts) : option string :=
  match keys stats with
  | [] => None
  | k0 :: _ =>
      Some (fold_left (fun a b => if more stats a b then a else b)
                      (keys stats) k0)
  end.

(** ['positive'], ['attention'], ['insight'] *)
Inductive InsightType : Type :=
  type_positive | type_attention | type_insight.

(** The five texts [getInsights] can push, by what they say; the one about
    the most common trigger quotes its name. *)
Inductive InsightText : Type :=
| MoodConsistentlyGood
| ConsiderReachingOut
| MostCommonTrigger (trigger : string)
| EnergyGreat
| LowEnergyDetected.

Record Insight : Type := {
  insight_type : InsightType;
  insight_text : InsightText
}.

Definition getInsights (checkIns : list CheckIn) (triggerStats : Counts)
  : list Insight :=
  match checkIns with
  | [] => []
  | _ =>
      let avgRecentMood := ProgressCharts.avgRecentMood checkIns in
      let mood :=
        if geb avgRecentMood (of_Z 7) then
          [{| insight_type := type_positive;
              insight_text := MoodConsistentlyGood |}]
        else if ltb avgRecentMood (of_Z 5) then
          [{| insight_type := type_attention;
              insight_text := ConsiderReachingOut |}]
        else [] in
      let trigger :=
        match topTrigger triggerStats with
        | Some t =>
            if negb (String.eqb t EmptyString)
               && match lookup t triggerStats with
                  | Some n => 2 <? n
                  | None => false
                  end
            then [{| insight_type := type_insight;
                     insight_text := MostCommonTrigger t |}]
            else []
        | None => []
        end in
      let avgEnergy := ProgressCharts.avgEnergy checkIns in
      let energy :=
        if geb avgEnergy (of_Z 4) then
          [{| insight_type := type_positive; insight_text := EnergyGreat |}]
        else if ltb avgEnergy (Fin (5 # 2)) then
          [{| insight_type := type_attention;
              insight_text := LowEnergyDetected |}]
        else [] in
      mood ++ trigger ++ energy
  end.

(** What the page shows after [fetchData] stored [data]: the insights of
    the check-ins with the trigger counts of the same check-ins. *)
Definition insights (data : list CheckIn) : list Insight :=
  getInsights data (calculateTriggerStats data).

End Triggers.

(* ================================================================== *)
(** ** More of the home page: the Dashboard as it renders *)

Module DashboardView.

Import JS Dashboard.

(** The label of the check-in button:
    [checkIns.length > 0 && checkIns[0].date ===
     new Date().toISOString().split('T')[0]]. *)
Definition updatesToday (now : Z) (checkIns : list CheckIn) : bool :=
  match checkIns with
  | [] => false
  | c :: _ => date c =? toISODate now
  end.

Definition checkInButton (now : Z) (checkIns : list CheckIn) : string :=
  if updatesToday now checkIns then "Update Today's Check-In"%string
  else "Start Daily Check-In"%string.

(** The two requests of the mount effect answer in some order; each answer
    sets its part of the state.  Both functions are those of the first
    render, so [fetchStats] computes the streak of that render's
    [checkIns].  The effect has no dependency and is not run again. *)
Inductive Answer : Type := CheckInsAnswer | StatsAnswer.

Definition receive (tz now : Z) (table : list CheckIn) (st : State)
    (a : Answer) : State :=
  match a with
  | CheckInsAnswer =>
      {| checkIns := fetchCheckIns table; stats := stats st |}
  | StatsAnswer =>
      {| checkIns := checkIns st;
         stats := fetchStats tz now (Some (Z.of_nat (List.length table)))
                             (Some (moodQuery now table))
                             (checkIns initial) |}
  end.

Definition after_answers (tz now : Z) (table : list CheckIn)
    (answers : list Answer) : State :=
  fold_left (receive tz now table) answers initial.

End DashboardView.

(* ================================================================== *)
(** ** DailyCheckIn.tsx: the trigger buttons *)

Module DailyCheckIn.

(** The tags the form offers, one button each. *)
Definition TRIGGER_OPTIONS : list string :=
  ["Stress"; "Social Situations"; "Work/School"; "Family"; "Money Worries";
   "Loneliness"; "Boredom"; "Anger"; "Sadness"; "Physical Pain";
   "Celebrations"; "Peer Pressure"; "Environment";
   "Routine Changes"]%string.

(** The [trigger_tags] that [toggleTrigger(trigger)] sets. *)
Definition toggleTrigger (trigger : string) (trigger_tags : list string)
  : list string :=
  if existsb (String.eqb trigger) trigger_tags
  then filter (fun t => negb (String.eqb t trigger)) trigger_tags
  else trigger_tags ++ [trigger].

End DailyCheckIn.

(* ================================================================== *)
(** ** Predicates used in the statements *)

(** The two statuses of a target that is reached or passed. *)
Definition due_or_overdue (status : string) : Prop :=
  status = "Due today"%string
  \/ exists k : Z, 0 < k
       /\ status = (JS.Number_toString k ++ " days overdue")%string.

(** A goal row has a completion date exactly when it is completed. *)
Definition dated_iff_completed (g : GoalsList.Row) : Prop :=
  completed_date (GoalsList.fields g) <> None
  <-> is_completed (GoalsList.fields g) = true.

(** The last character of a string. *)
Fixpoint last_char (s : string) : option ascii :=
  match s with
  | EmptyString => None
  | String c EmptyString => Some c
  | String _ rest => last_char rest
  end.

(* ================================================================== *)
(** ** Notions used in the statements about the further code *)

(** The distinct elements of a list, in the order of their first
    occurrence. *)
Fixpoint first_occurrences (l : list string) : list string :=
  match l with
  | [] => []
  | x :: rest =>
      x :: filter (fun y => negb (String.eqb y x)) (first_occurrences rest)
  end.

(** Every tag of the check-ins, in the order [calculateTriggerStats] meets
    them. *)
Definition all_tags (data : list CheckIn) : list string :=
  List.concat (map trigger_tags data).

(** Every tag is one of the options the check-in form offers; the form
    writes no other tag. *)
Definition known_tags (data : list CheckIn) : bool :=
  forallb (fun t => existsb (String.eqb t) DailyCheckIn.TRIGGER_OPTIONS)
          (all_tags data).

(** One step of [calculateTriggerStats]:
    [stats[trigger] = (stats[trigger] || 0) + 1]. *)
Definition tally (stats : Triggers.Counts) (trigger : string)
  : Triggers.Counts :=
  Triggers.assign trigger (JS.or0 (Triggers.lookup trigger stats) + 1) stats.

Definition absent (ks : list string) (y : string) : bool :=
  negb (existsb (String.eqb y) ks).

(** The count of a key, 0 for a key the object does not have. *)
Definition count_of (stats : Triggers.Counts) (k : string) : Z :=
  JS.or0 (Triggers.lookup k stats).

(** The order of the Trigger Summary: the count of [a] is at least that of
    [b]. *)
Definition at_least (a b : string * Z) : Prop := snd b <= snd a.

(** An insight about the most common trigger is of type ['insight'] and
    names a key whose count is above 2 and is the largest of the object. *)
Definition names_most_frequent (stats : Triggers.Counts)
    (i : Triggers.Insight) : Prop :=
  match Triggers.insight_text i with
  | Triggers.MostCommonTrigger t =>
      Triggers.insight_type i = Triggers.type_insight
      /\ exists n, Triggers.lookup t stats = Some n /\ 2 < n
                   /\ forall t' n', Triggers.lookup t' stats = Some n' ->
                                    n' <= n
  | _ => True
  end.

(** The same in terms of the check-ins: the tag named occurs at least
    three times among their tags, and no tag occurs more often. *)
Definition names_top_tag (data : list CheckIn) (i : Triggers.Insight)
  : Prop :=
  match Triggers.insight_text i with
  | Triggers.MostCommonTrigger t =>
      (3 <= count_occ string_dec (all_tags data) t)%nat
      /\ forall t', (count_occ string_dec (all_tags data) t'
                     <= count_occ string_dec (all_tags data) t)%nat
  | _ => True
  end.

(** The order of a query [.order('date', { ascending })]. *)
Definition date_order (ascending : bool) (a b : CheckIn) : Prop :=
  if ascending then date a <= date b else date b <= date a.

Definition is_checkIns (a : DashboardView.Answer) : bool :=
  match a with
  | DashboardView.CheckInsAnswer => true
  | DashboardView.StatsAnswer => false
  end.

(** The rows of a query answer, none for [null]. *)
Definition rows_of (answer : option (list CheckIn)) : list CheckIn :=
  match answer with
  | Some rows => rows
  | None => []
  end.

(** The success rate for [c] completed goals of [n], as [successRate]
    computes it. *)
Definition rate_of (c n : Z) : option Z :=
  Binary64.Math_round
    (Binary64.mul (Binary64.div (Binary64.of_Z c) (Binary64.of_Z n))
                  (Binary64.of_Z 100)).

(** The rate is an integer [r] from 0 to 100 that is nearest to
    [100 * c / n]: [|100 c - n r| <= n / 2]. *)
Definition rate_ok (c n : Z) : bool :=
  match rate_of c n with
  | Some r => (0 <=? r) && (r <=? 100)
              && (- n <=? 200 * c - 2 * n * r)
              && (200 * c - 2 * n * r <=? n)
  | None => false
  end.

(** [rate_ok] for every [n] from 1 to [N] and every [c] from 0 to [n]. *)
Definition rates_ok (N : nat) : bool :=
  forallb (fun n => forallb (fun c => rate_ok (Z.of_nat c) (Z.of_nat n))
                            (seq 0 (S n)))
          (seq 1 N).

(** ** More sample rows *)

(** The zone of New York around 10 March 2024 (day 19792), when daylight
    saving began at 07:00 UTC: five hours west of UTC before, four hours
    after; the local times from 02:00 to 03:00 of that day are skipped. *)
Definition new_york_march_2024 : Zone :=
  {| LocalTZA := fun t isUTC =>
       let hour := 60 * 60 * 1000 in
       let switch := if isUTC then Date_parse 19792 + 7 * hour
                     else Date_parse 19792 + 3 * hour in
       if t <? switch then - (5 * hour) else - (4 * hour) |}.

(** Forty goals, twenty-three of them completed. *)
Definition forty_goals : list GoalsList.Row :=
  repeat {| GoalsList.goal_id := "done";
            GoalsList.fields := goal_of 0 None true |} 23
  ++ repeat {| GoalsList.goal_id := "open";
               GoalsList.fields := goal_of 0 None false |} 17.

Definition sample_row (name : string) (done : bool) (on : option Z)
  : GoalsList.Row :=
  {| GoalsList.goal_id := name;
     GoalsList.fields :=
       {| goal_title := name; target_date := None;
          is_completed := done; completed_date := on;
          priority := 3; created_at := 0 |} |}.

(** Two goals: "a" open, "b" completed on day 5. *)
Definition sample_goals : GoalsList.State :=
  {| GoalsList.goals :=
       [sample_row "a" false None; sample_row "b" true (Some 5)];
     GoalsList.showCelebration := None |}.

Definition tagged (tags : list string) : CheckIn :=
  {| date := 0; mood_score := None; energy_level := None;
     sleep_quality := None; trigger_tags := tags |}.

(** Three check-ins with the tags Stress (three times), Anger and
    Boredom. *)
Definition tagged_days : list CheckIn :=
  [tagged ["Stress"; "Anger"]%string; tagged ["Stress"]%string;
   tagged ["Boredom"; "Stress"]%string].

(* ================================================================== *)
(** * Properties *)

(** ** Numbers and days *)

Section NumberFacts.

Import JS.

Lemma num_eq_refl (a : number) : a =j= a.
Proof. destruct a; simpl; auto. apply Qeq_refl. Qed.

Lemma MS_PER_DAY_pos : 0 < MS_PER_DAY.
Proof. reflexivity. Qed.

(** [floor_div] and [ceil_div] are the floor and the ceiling of the
    rational quotient. *)
Lemma floor_div_Qfloor (a b : Z) :
  floor_div a b = Qfloor (inject_Z a / inject_Z b).
Proof. unfold floor_div. apply Zdiv_Qdiv. Qed.

Lemma ceil_div_Qceiling (a b : Z) :
  ceil_div a b = Qceiling (inject_Z a / inject_Z b).
Proof.
  unfold ceil_div, Qceiling. f_equal.
  rewrite Zdiv_Qdiv. apply Qfloor_comp.
  rewrite inject_Z_opp. unfold Qdiv. ring.
Qed.

Lemma ceil_div_bounds (a b : Z) :
  0 < b -> (ceil_div a b - 1) * b < a <= ceil_div a b * b.
Proof.
  intros Hb. unfold ceil_div.
  pose proof (Z.div_mod (- a) b ltac:(lia)) as E.
  pose proof (Z.mod_pos_bound (- a) b Hb) as B.
  nia.
Qed.

Lemma ceil_div_unique (a b d : Z) :
  0 < b -> (d - 1) * b < a <= d * b -> ceil_div a b = d.
Proof.
  intros Hb H. pose proof (ceil_div_bounds a b Hb). nia.
Qed.

Lemma div_days (a : Z) :
  div (of_Z a) (of_Z MS_PER_DAY) = Fin (in_days a).
Proof. reflexivity. Qed.

Lemma in_days_zero (a : Z) : Qeq_bool (in_days a) 0 = (a =? 0).
Proof.
  unfold Qeq_bool, in_days; simpl.
  destruct (Z.eqb_spec a 0), (Z.eqb_spec (a * 1 * 1) 0); lia.
Qed.

Lemma in_days_nonneg (a : Z) : Qle_bool 0 (in_days a) = (0 <=? a).
Proof.
  unfold Qle_bool, in_days; simpl.
  destruct (Z.leb_spec 0 a), (Z.leb_spec 0 (a * 1)); lia.
Qed.

Lemma Qle_bool_false (p q : Q) : Qle_bool p q = false -> (q < p)%Q.
Proof.
  intros H. apply Qnot_le_lt. intros C. apply Qle_bool_iff in C. congruence.
Qed.

Lemma div_by_length (s : Z) (n : nat) :
  div (of_Z s) (of_Z (Z.of_nat (S n)))
  = Fin (inject_Z s / inject_Z (Z.of_nat (S n))).
Proof.
  unfold div, of_Z.
  replace (Qeq_bool (inject_Z (Z.of_nat (S n))) 0) with false; [reflexivity|].
  symmetry. unfold Qeq_bool, inject_Z. simpl Qnum. simpl Qden.
  apply Z.eqb_neq. lia.
Qed.

End NumberFacts.

(** ** Goal progress *)

Section GoalProgress.

Import JS GoalsMilestones Rules.

Ltac q_cases :=
  repeat match goal with
  | |- context [Qle_bool ?a ?b] =>
      let E := fresh "E" in
      destruct (Qle_bool a b) eqn:E;
      [apply Qle_bool_iff in E | apply Qle_bool_false in E]
  end.

(** [Math.min(100, Math.max(0, x))] is the clamp of [x], also at the
    infinities and at NaN (which both leave as NaN). *)
Lemma min_max_is_clamp (x : number) :
  Math_min (of_Z 100) (Math_max (of_Z 0) x) =j= clamp x (of_Z 0) (of_Z 100).
Proof.
  destruct x as [q| | |]; try exact I; try (simpl; reflexivity).
  unfold Math_min, Math_max, clamp, of_Z, ltb, isNaN; simpl orb.
  q_cases; simpl; q_cases; simpl; try reflexivity;
    unfold inject_Z in *; lra.
Qed.

Lemma in_days_Qdiv (a : Z) :
  (in_days a == inject_Z a / inject_Z MS_PER_DAY)%Q.
Proof. unfold in_days. rewrite Z.mul_1_r. apply Qmake_Qdiv. Qed.

(** elapsed / total * 100 with both in days is 100 * elapsed / total with
    both in milliseconds. *)
Lemma percent_value (e t : Z) :
  t <> 0 ->
  (in_days e / in_days t * inject_Z 100 == inject_Z (100 * e) / inject_Z t)%Q.
Proof.
  intros Ht. rewrite !in_days_Qdiv, inject_Z_mult.
  assert (~ inject_Z t == 0)%Q.
  { intros C. apply Ht. apply (inject_Z_injective t 0). exact C. }
  assert (~ inject_Z MS_PER_DAY == 0)%Q by discriminate.
  field. split; assumption.
Qed.

Lemma percent_sign (e t : Z) :
  0 < t ->
  let x := (inject_Z (100 * e) / inject_Z t)%Q in
  (e <= 0 -> (x <= 0)%Q) /\ (0 < e -> (0 < x)%Q)
  /\ (t <= e -> (inject_Z 100 <= x)%Q) /\ (e < t -> (x < inject_Z 100)%Q).
Proof.
  intros Ht x. unfold x.
  assert (Hq : (0 < inject_Z t)%Q)
    by (change (inject_Z 0 < inject_Z t)%Q; rewrite <- Zlt_Qlt; exact Ht).
  split; [|split; [|split]]; intros H.
  - apply Qle_shift_div_r; [exact Hq|]. rewrite Qmult_0_l.
    change (inject_Z (100 * e) <= inject_Z 0)%Q. rewrite <- Zle_Qle. lia.
  - apply Qlt_shift_div_l; [exact Hq|]. rewrite Qmult_0_l.
    change (inject_Z 0 < inject_Z (100 * e))%Q. rewrite <- Zlt_Qlt. lia.
  - apply Qle_shift_div_l; [exact Hq|]. rewrite <- inject_Z_mult.
    rewrite <- Zle_Qle. lia.
  - apply Qlt_shift_div_r; [exact Hq|]. rewrite <- inject_Z_mult.
    rewrite <- Zlt_Qlt. lia.
Qed.

(** A goal whose target is after its creation: 0 until the creation, 100
    from the target on, and in between the share of the time elapsed. *)
Lemma getGoalProgress_regular (now : Z) (goal : Goal) (d : Z) :
  is_completed goal = false ->
  target_date goal = Some d ->
  created_at goal < Date_parse d ->
  let elapsed := now - created_at goal in
  let total := Date_parse d - created_at goal in
  getGoalProgress now goal =j=
    if elapsed <=? 0 then of_Z 0
    else if total <=? elapsed then of_Z 100
    else Fin (inject_Z (100 * elapsed) / inject_Z total).
Proof.
  intros Hc Ht Hlt elapsed total. unfold getGoalProgress. rewrite Hc, Ht.
  cbv zeta. fold elapsed total. rewrite !div_days.
  assert (Hpos : 0 < total) by (unfold total; lia).
  clearbody elapsed total. clear Hc Ht Hlt.
  unfold div. rewrite in_days_zero.
  replace (total =? 0) with false by (symmetry; apply Z.eqb_neq; lia).
  pose proof (percent_value elapsed total ltac:(lia)) as Hx.
  destruct (percent_sign elapsed total Hpos) as (F1 & F2 & F3 & F4).
  rewrite <- Hx in F1, F2, F3, F4.
  set (x := (in_days elapsed / in_days total * inject_Z 100)%Q) in *.
  change (mul (Fin (in_days elapsed / in_days total)) (of_Z 100)) with (Fin x).
  clearbody x.
  unfold of_Z, Math_max, Math_min, isNaN, ltb; simpl orb.
  change (inject_Z 0) with 0%Q in *.
  destruct (Z.leb_spec elapsed 0) as [H0|H0];
    [specialize (F1 H0)
    |specialize (F2 H0);
     destruct (Z.leb_spec total elapsed) as [H1|H1];
     [specialize (F3 H1)|specialize (F4 H1)]];
    q_cases; cbn [negb]; q_cases; cbn [negb num_eq];
    try reflexivity; try exact Hx;
    change (inject_Z 100) with (100 # 1)%Q in *; lra.
Qed.

(** C4.  For every goal and every time of evaluation, [getGoalProgress]
    returns what the rule of the specification gives: 100 for a completed
    goal, 0 for a goal without target date, and otherwise
    clamp(elapsed / total * 100, 0, 100) with elapsed and total in days.
    With created_at = day 0 and target_date = day 10 it returns 50 on day 5
    and 100 on day 15. *)
Theorem getGoalProgress_follows_rule (now : Z) (goal : Goal) :
  getGoalProgress now goal =j= progress_rule now goal
  /\ getGoalProgress (Date_parse 5) (goal_of (Date_parse 0) (Some 10) false)
     =j= of_Z 50
  /\ getGoalProgress (Date_parse 15) (goal_of (Date_parse 0) (Some 10) false)
     =j= of_Z 100.
Proof.
  split; [|split; vm_compute; reflexivity].
  unfold getGoalProgress, progress_rule.
  destruct (is_completed goal); [apply num_eq_refl|].
  destruct (target_date goal) as [d|]; [|apply num_eq_refl].
  cbv zeta. apply min_max_is_clamp.
Qed.

(** C3, where the code departs from it.  The divisor is not guarded.  For
    a goal that is not completed, whose target date is at or before its
    creation and whose creation is not in the future, the result is 100
    only when target and creation coincide and time has passed (the
    quotient is +Infinity and [Math.min] brings it to 100); it is 0
    whenever the target is strictly before the creation, and NaN when
    target, creation and the time of evaluation coincide. *)
Theorem getGoalProgress_total_nonpositive (now : Z) (goal : Goal) (d : Z) :
  is_completed goal = false ->
  target_date goal = Some d ->
  Date_parse d <= created_at goal ->
  created_at goal <= now ->
  getGoalProgress now goal =
    if Date_parse d <? created_at goal then of_Z 0
    else if created_at goal <? now then of_Z 100
    else NaN.
Proof.
  intros Hc Ht Hle Hnow. unfold getGoalProgress. rewrite Hc, Ht. cbv zeta.
  rewrite !div_days.
  set (ta := Date_parse d - created_at goal).
  set (ea := now - created_at goal).
  assert (Hta : ta <= 0) by (unfold ta; lia).
  assert (Hea : 0 <= ea) by (unfold ea; lia).
  replace (Date_parse d <? created_at goal) with (ta <? 0)
    by (unfold ta;
        destruct (Z.ltb_spec (Date_parse d - created_at goal) 0),
                 (Z.ltb_spec (Date_parse d) (created_at goal)); lia).
  replace (created_at goal <? now) with (0 <? ea)
    by (unfold ea;
        destruct (Z.ltb_spec 0 (now - created_at goal)),
                 (Z.ltb_spec (created_at goal) now); lia).
  clearbody ta ea. clear Hle Hnow Hc Ht.
  unfold div at 1. rewrite in_days_zero.
  destruct (Z.eqb_spec ta 0) as [->|Hne].
  - rewrite in_days_zero, in_days_nonneg. simpl (0 <? 0).
    destruct (Z.eqb_spec ea 0) as [->|Hne]; [reflexivity|].
    replace (0 <=? ea) with true by (symmetry; apply Z.leb_le; lia).
    replace (0 <? ea) with true by (symmetry; apply Z.ltb_lt; lia).
    reflexivity.
  - replace (ta <? 0) with true by (symmetry; apply Z.ltb_lt; lia).
    destruct ta as [|tp|tn]; try lia.
    unfold mul, of_Z, Math_max, Math_min, isNaN, ltb; simpl orb.
    assert (Hx : Qle_bool (in_days ea / in_days (Z.neg tn) * inject_Z 100)
                          (inject_Z 0) = true).
    { apply Qle_bool_iff. unfold Qle, in_days, Qdiv, Qmult, Qinv; simpl. lia. }
    rewrite Hx. simpl. reflexivity.
Qed.

(** A goal created on day 10 with target day 9, looked at on day 11. *)
Lemma getGoalProgress_total_nonpositive_witness :
  let goal := goal_of (Date_parse 10) (Some 9) false in
  is_completed goal = false
  /\ target_date goal = Some 9
  /\ Date_parse 9 <= created_at goal
  /\ created_at goal <= Date_parse 11
  /\ getGoalProgress (Date_parse 11) goal = of_Z 0.
Proof.
  cbv zeta.
  assert (H1 : Date_parse 9 <= created_at (goal_of (Date_parse 10) (Some 9) false))
    by (vm_compute; discriminate).
  assert (H2 : created_at (goal_of (Date_parse 10) (Some 9) false) <= Date_parse 11)
    by (vm_compute; discriminate).
  refine (conj eq_refl (conj eq_refl (conj H1 (conj H2 _)))).
  exact (getGoalProgress_total_nonpositive
           (Date_parse 11) (goal_of (Date_parse 10) (Some 9) false) 9
           eq_refl eq_refl H1 H2).
Defined.

(** The failing input of C3: the goal above has total = -1 day and
    elapsed = 1 day, and its progress is 0, not 100. *)
Lemma getGoalProgress_past_target_is_0 :
  let goal := goal_of (Date_parse 10) (Some 9) false in
  let now := Date_parse 11 in
  Date_parse 9 - created_at goal <= 0
  /\ 0 <= now - created_at goal
  /\ getGoalProgress now goal = of_Z 0
  /\ ~ (getGoalProgress now goal =j= of_Z 100).
Proof.
  cbv zeta. split; [vm_compute; discriminate|].
  split; [vm_compute; discriminate|].
  split; [vm_compute; reflexivity|].
  vm_compute. discriminate.
Qed.

(** A goal created at 09:00 of day 10 with target day 10, seen at 10:00:
    the status reads "Due today" and the progress is 0. *)
Example getGoalProgress_due_today_at_0 :
  let hour := 60 * 60 * 1000 in
  let goal := goal_of (Date_parse 10 + 9 * hour) (Some 10) false in
  let now := Date_parse 10 + 10 * hour in
  getDaysUntilTarget now 10 = "Due today"%string
  /\ getGoalProgress now goal = of_Z 0.
Proof. cbv zeta. split; vm_compute; reflexivity. Qed.

(** A goal whose target date is its creation time, evaluated at that very
    time, has progress NaN. *)
Example getGoalProgress_NaN :
  getGoalProgress (Date_parse 10) (goal_of (Date_parse 10) (Some 10) false)
  = NaN.
Proof. reflexivity. Qed.

End GoalProgress.

(** ** Days until the target *)

Section DaysUntilTarget.

Import JS GoalsMilestones Rules.

Lemma getDaysUntilTarget_status_rule (now targetDate : Z) :
  getDaysUntilTarget now targetDate =
  status_rule (ceil_div (Date_parse targetDate - now) MS_PER_DAY).
Proof. reflexivity. Qed.

(** Seen from any time of a day, the target [k] days later is [k] days
    away. *)
Lemma ceil_div_from_today (now k : Z) :
  ceil_div (Date_parse (toISODate now + k) - now) MS_PER_DAY = k.
Proof.
  apply ceil_div_unique; [exact MS_PER_DAY_pos|].
  unfold Date_parse, toISODate.
  pose proof (Z.div_mod now MS_PER_DAY ltac:(discriminate)) as E.
  pose proof (Z.mod_pos_bound now MS_PER_DAY MS_PER_DAY_pos) as B.
  nia.
Qed.

(** C7.  For every target date and time of evaluation, the status is the
    one the rule gives for the number [n] of days until the target, where
    [n] is the ceiling of (target - today) in days: the integer with
    n - 1 < (target - now) / day <= n.  A target of today reads
    "Due today", of tomorrow "1 day left", of three days ago
    "3 days overdue". *)
Theorem getDaysUntilTarget_spec (now targetDate : Z) :
  (exists n : Z,
      (n - 1) * MS_PER_DAY < Date_parse targetDate - now <= n * MS_PER_DAY
      /\ getDaysUntilTarget now targetDate = status_rule n)
  /\ getDaysUntilTarget now (toISODate now) = "Due today"%string
  /\ getDaysUntilTarget now (toISODate now + 1) = "1 day left"%string
  /\ getDaysUntilTarget now (toISODate now - 3) = "3 days overdue"%string.
Proof.
  split; [|split; [|split]].
  - exists (ceil_div (Date_parse targetDate - now) MS_PER_DAY). split.
    + apply ceil_div_bounds, MS_PER_DAY_pos.
    + apply getDaysUntilTarget_status_rule.
  - rewrite getDaysUntilTarget_status_rule.
    replace (toISODate now) with (toISODate now + 0) by lia.
    rewrite ceil_div_from_today. reflexivity.
  - rewrite getDaysUntilTarget_status_rule, ceil_div_from_today. reflexivity.
  - rewrite getDaysUntilTarget_status_rule.
    replace (toISODate now - 3) with (toISODate now + -3) by lia.
    rewrite ceil_div_from_today. reflexivity.
Qed.

End DaysUntilTarget.

(** ** The streak *)

Section Streak.

Import JS Dashboard Rules.

Lemma toDateString_setDate_minus (tz t n : Z) :
  toDateString tz (setDate_minus t n) = toDateString tz t - n.
Proof.
  unfold toDateString, setDate_minus.
  replace (t - n * MS_PER_DAY + tz) with (t + tz + (- n) * MS_PER_DAY) by lia.
  rewrite Z.div_add by discriminate. lia.
Qed.

(** In UTC a date-only string is rendered as its own day. *)
Lemma toDateString_utc_parse (d : Z) : toDateString 0 (Date_parse d) = d.
Proof.
  unfold toDateString, Date_parse. rewrite Z.add_0_r.
  apply Z.div_mul. discriminate.
Qed.

(** A date-only string is parsed as UTC midnight and rendered in the
    local zone: as its own day at UTC and east of it, as the day before
    west of UTC. *)
Lemma toDateString_parse (tz d : Z) :
  toDateString tz (Date_parse d) = d + tz / MS_PER_DAY.
Proof.
  unfold toDateString, Date_parse. apply Z.div_add_l. discriminate.
Qed.

(** The loop entered at index [n] with [s] counted adds the length of the
    unbroken prefix of what is left, where the day that counts as today is
    the local day of [now] minus the shift of the parsed dates. *)
Lemma streak_loop_spec (tz now : Z) (data : list CheckIn) :
  forall (n : nat) (s : Z),
  exists k : nat,
    streak_loop tz now data (Z.of_nat n) s = s + Z.of_nat k
    /\ (k <= List.length data)%nat
    /\ (forall j c, (j < k)%nat -> nth_error data j = Some c ->
                    on_expected_day (toDateString tz now - tz / MS_PER_DAY)
                                    (n + j) c)
    /\ (forall c, nth_error data k = Some c ->
                  ~ on_expected_day (toDateString tz now - tz / MS_PER_DAY)
                                    (n + k) c).
Proof.
  induction data as [|c rest IH]; intros n s.
  - exists 0%nat. simpl. split; [lia|]. split; [lia|]. split.
    + intros j c Hj. lia.
    + intros c H. discriminate.
  - simpl. rewrite toDateString_setDate_minus, toDateString_parse.
    destruct (Z.eqb_spec (date c + tz / MS_PER_DAY)
                         (toDateString tz now - Z.of_nat n)) as [E|E].
    + replace (Z.of_nat n + 1) with (Z.of_nat (S n)) by lia.
      destruct (IH (S n) (s + 1)) as (k & Hk & Hlen & Hpre & Hstop).
      exists (S k). split; [rewrite Hk; lia|]. split; [simpl; lia|]. split.
      * intros [|j] c' Hj Hn.
        -- simpl in Hn. injection Hn as <-. unfold on_expected_day.
           rewrite Nat.add_0_r. lia.
        -- simpl in Hn. replace (n + S j)%nat with (S n + j)%nat by lia.
           apply Hpre; [lia|exact Hn].
      * intros c' Hn. simpl in Hn.
        replace (n + S k)%nat with (S n + k)%nat by lia. apply Hstop, Hn.
    + exists 0%nat. split; [lia|]. split; [simpl; lia|]. split.
      * intros j c' Hj. lia.
      * intros c' Hn. simpl in Hn. injection Hn as <-.
        unfold on_expected_day. rewrite Nat.add_0_r. lia.
Qed.

(** In every zone of fixed offset, [calculateStreak] returns the length of
    the unbroken prefix counted from the local day of [now] minus the
    shift [tz / day] of the parsed dates. *)
Lemma calculateStreak_prefix (tz now : Z) (data : list CheckIn) :
  exists k : nat,
    calculateStreak tz now data = Z.of_nat k
    /\ unbroken_prefix (toDateString tz now - tz / MS_PER_DAY) data k.
Proof.
  destruct (streak_loop_spec tz now data 0 0) as (k & Hk & Hlen & Hpre & Hstop).
  exists k. split.
  - unfold calculateStreak. destruct data as [|c rest].
    + simpl in Hlen. assert (k = 0)%nat by lia. subst k. reflexivity.
    + exact Hk.
  - repeat split; assumption.
Qed.

(** A list has one unbroken prefix: its length is determined. *)
Lemma unbroken_prefix_unique (today : Z) (data : list CheckIn) (k k' : nat) :
  unbroken_prefix today data k -> unbroken_prefix today data k' -> k = k'.
Proof.
  intros (Hl & Hp & Hs) (Hl' & Hp' & Hs').
  destruct (Nat.lt_trichotomy k k') as [H|[H|H]]; [exfalso| exact H |exfalso].
  - destruct (nth_error data k) as [c|] eqn:E.
    + apply (Hs c eq_refl). apply Hp'; assumption.
    + apply nth_error_None in E. lia.
  - destruct (nth_error data k') as [c|] eqn:E.
    + apply (Hs' c eq_refl). apply Hp; assumption.
    + apply nth_error_None in E. lia.
Qed.

(** The unbroken prefix of [today, today-1, today-3] has length 2. *)
Lemma unbroken_prefix_with_gap (today : Z) :
  unbroken_prefix today
    [checkin_on today; checkin_on (today - 1); checkin_on (today - 3)] 2.
Proof.
  split; [simpl; lia|]. split.
  - intros [|[|i]] c Hi Hn; simpl in Hn; try lia;
      injection Hn as <-; unfold on_expected_day; simpl; lia.
  - intros c Hn. simpl in Hn. injection Hn as <-.
    unfold on_expected_day. simpl. lia.
Qed.

(** At UTC and east of it (an offset from 0 to less than 24 hours), the
    rule of C2 holds: [calculateStreak] returns the length of the prefix
    in which the i-th record's date is today minus i, today being the
    local calendar day; the empty list gives 0 and
    [today, today-1, today-3] gives 2. *)
Lemma calculateStreak_east_of_utc (tz now : Z) (data : list CheckIn) :
  0 <= tz < MS_PER_DAY ->
  (exists k : nat,
      calculateStreak tz now data = Z.of_nat k
      /\ unbroken_prefix (toDateString tz now) data k)
  /\ calculateStreak tz now [] = 0
  /\ (let today := toDateString tz now in
      calculateStreak tz now
        [checkin_on today; checkin_on (today - 1); checkin_on (today - 3)]
      = 2).
Proof.
  intros Htz.
  assert (H0 : tz / MS_PER_DAY = 0) by (apply Z.div_small; exact Htz).
  assert (Hp : forall l, exists k : nat,
             calculateStreak tz now l = Z.of_nat k
             /\ unbroken_prefix (toDateString tz now) l k).
  { intros l. destruct (calculateStreak_prefix tz now l) as (k & Hk & Hu).
    rewrite H0, Z.sub_0_r in Hu. exists k. split; assumption. }
  split; [apply Hp|]. split; [reflexivity|]. cbv zeta.
  destruct (Hp [checkin_on (toDateString tz now);
                checkin_on (toDateString tz now - 1);
                checkin_on (toDateString tz now - 3)]) as (k & Hk & Hu).
  rewrite Hk.
  rewrite (unbroken_prefix_unique _ _ _ _ Hu (unbroken_prefix_with_gap _)).
  reflexivity.
Qed.

(** West of UTC (an offset of less than 24 hours), the loop takes the day
    after the local day for today: the record at index i passes when its
    date is the local day of [now] plus 1 minus i. *)
Lemma calculateStreak_behind_utc (tz now : Z) (data : list CheckIn) :
  - MS_PER_DAY <= tz < 0 ->
  exists k : nat,
    calculateStreak tz now data = Z.of_nat k
    /\ unbroken_prefix (toDateString tz now + 1) data k.
Proof.
  intros Htz.
  assert (H1 : tz / MS_PER_DAY = -1).
  { symmetry. apply (Z.div_unique tz MS_PER_DAY (-1) (tz + MS_PER_DAY)); lia. }
  destruct (calculateStreak_prefix tz now data) as (k & Hk & Hu).
  rewrite H1 in Hu.
  replace (toDateString tz now - -1) with (toDateString tz now + 1) in Hu
    by lia.
  exists k. split; assumption.
Qed.

(** C2, where the code departs from it.  Five hours west of UTC, at local
    noon of day 100, today is day 100 and the records are dated 100, 99
    and 97: the unbroken prefix has length 2, and [calculateStreak]
    returns 0, because the date-only string of day 100 is parsed as UTC
    midnight and rendered as day 99.  At the same instant in UTC it
    returns 2. *)
Theorem calculateStreak_west_of_utc :
  let tz := - (5 * 60 * 60 * 1000) in
  let now := Date_parse 100 + 17 * 60 * 60 * 1000 in
  let data := [checkin_on 100; checkin_on 99; checkin_on 97] in
  toDateString tz now = 100
  /\ unbroken_prefix 100 data 2
  /\ toDateString tz (Date_parse 100) = 99
  /\ calculateStreak tz now data = 0
  /\ calculateStreak 0 now data = 2.
Proof.
  cbv zeta. split; [reflexivity|].
  split; [exact (unbroken_prefix_with_gap 100)|].
  split; [reflexivity|]. split; reflexivity.
Qed.

Lemma calculateStreak_le_length (tz now : Z) (data : list CheckIn) :
  0 <= calculateStreak tz now data <= Z.of_nat (List.length data).
Proof.
  destruct (calculateStreak_prefix tz now data) as (k & -> & Hl & _). lia.
Qed.

Lemma insert_by_date_length (asc : bool) (c : CheckIn) (l : list CheckIn) :
  List.length (insert_by_date asc c l) = S (List.length l).
Proof.
  induction l as [|x r IH]; simpl; [reflexivity|].
  destruct (if asc then _ else _); simpl; congruence.
Qed.

Lemma order_by_date_length (asc : bool) (table : list CheckIn) :
  List.length (order_by_date asc table) = List.length table.
Proof.
  induction table as [|c r IH]; simpl; [reflexivity|].
  rewrite insert_by_date_length, IH. reflexivity.
Qed.

Lemma fetchCheckIns_length (table : list CheckIn) :
  (List.length (fetchCheckIns table) <= 7)%nat.
Proof. unfold fetchCheckIns. apply firstn_le_length. Qed.

(** The streak the mount effect stores is computed from the [checkIns] of
    the first render, the empty list. *)
Lemma mount_streak (tz now : Z) (table : list CheckIn) :
  streak (stats (mount tz now table)) = 0.
Proof. reflexivity. Qed.

(** For every history, the list the dashboard fetches has at most 7
    records, the streak computed from that list is at most 7, and so is
    the streak the dashboard stores. *)
Lemma dashboard_streak_at_most_7 (tz now : Z) (table : list CheckIn) :
  (List.length (fetchCheckIns table) <= 7)%nat
  /\ calculateStreak tz now (fetchCheckIns table) <= 7
  /\ streak (stats (mount tz now table)) <= 7.
Proof.
  split; [apply fetchCheckIns_length|]. split.
  - pose proof (calculateStreak_le_length tz now (fetchCheckIns table)).
    pose proof (fetchCheckIns_length table). lia.
  - rewrite mount_streak. lia.
Qed.

(** Ten days in a row ending today: the streak of the whole history is
    10, the streak of the fetched list is 7. *)
Example streak_of_ten_days :
  let now := Date_parse 100 + 1000 in
  calculateStreak 0 now (order_by_date false ten_days) = 10
  /\ calculateStreak 0 now (fetchCheckIns ten_days) = 7.
Proof. split; vm_compute; reflexivity. Qed.

(** C10, where the code departs from it.  With a check-in on each of the
    ten days up to today, the dashboard fetches the seven most recent
    ones, and the streak of that list is 7; the streak it stores and
    shows is 0, because [fetchStats] runs in the mount effect with the
    [checkIns] of the first render, the empty list, and is not run again.
    The stored streak is 0 for every history. *)
Theorem dashboard_streak_not_from_fetched_list :
  let now := Date_parse 100 + 1000 in
  fetchCheckIns ten_days = firstn 7 ten_days
  /\ calculateStreak 0 now (fetchCheckIns ten_days) = 7
  /\ checkIns (mount 0 now ten_days) = fetchCheckIns ten_days
  /\ streak (stats (mount 0 now ten_days)) = 0
  /\ (forall tz t table, streak (stats (mount tz t table)) = 0).
Proof.
  cbv zeta. split; [vm_compute; reflexivity|].
  split; [vm_compute; reflexivity|]. split; [reflexivity|].
  split; [reflexivity|]. intros tz t table. reflexivity.
Qed.

End Streak.

(** ** Milestone evaluation *)

Section Evaluate.

Import JS GoalsMilestones Rules.

Lemma existing_existsb (seen : list Milestone) (ty : string) (v : Z) :
  existing seen ty v
  = existsb (fun m => String.eqb (milestone_type m) ty
                      && (milestone_value m =? v)) seen.
Proof.
  unfold existing. induction seen as [|m rest IH]; simpl; [reflexivity|].
  destruct (String.eqb (milestone_type m) ty && (milestone_value m =? v));
    [reflexivity|exact IH].
Qed.

Lemma existing_true_iff (seen : list Milestone) (ty : string) (v : Z) :
  existing seen ty v = true
  <-> exists m, In m seen /\ milestone_type m = ty /\ milestone_value m = v.
Proof.
  rewrite existing_existsb, existsb_exists. split.
  - intros (m & Hin & H). apply andb_true_iff in H as [Ht Hv].
    exists m. split; [exact Hin|]. split.
    + apply String.eqb_eq, Ht.
    + apply Z.eqb_eq, Hv.
  - intros (m & Hin & Ht & Hv). exists m. split; [exact Hin|].
    apply andb_true_iff. split; [apply String.eqb_eq, Ht|apply Z.eqb_eq, Hv].
Qed.

Lemma newly_earned_In seen ty counter table v :
  In v (newly_earned seen ty counter table)
  <-> In v table /\ v <= counter /\ existing seen ty v = false.
Proof.
  unfold newly_earned. rewrite filter_In, <- existing_existsb, andb_true_iff,
    negb_true_iff, Z.leb_le. tauto.
Qed.

Lemma newly_earned_nil seen ty counter table :
  (forall v, In v table -> v <= counter -> existing seen ty v = true) ->
  newly_earned seen ty counter table = [].
Proof.
  intros H. destruct (newly_earned seen ty counter table) as [|v l] eqn:E;
    [reflexivity|exfalso].
  assert (Hin : In v (newly_earned seen ty counter table))
    by (rewrite E; left; reflexivity).
  apply newly_earned_In in Hin as (Ht & Hc & Hex).
  rewrite (H v Ht Hc) in Hex. discriminate.
Qed.

(** One loop, for any store, table and counter. *)
Variable store : Store.
Variable seen : list Milestone.
Variable ty : string.
Variable row : Z -> Milestone.
Variable celebrate : bool.
Variable counter : Z.

Lemma evaluate_requests (table : list Z) (p : Pass) :
  requests (evaluate store seen ty row celebrate counter table p)
  = requests p ++ map row (newly_earned seen ty counter table).
Proof.
  unfold evaluate, newly_earned. revert p.
  induction table as [|v rest IH]; intros p; simpl.
  - symmetry. apply app_nil_r.
  - rewrite <- existing_existsb.
    destruct (v <=? counter); simpl; [|apply IH].
    destruct (existing seen ty v); simpl; [apply IH|].
    rewrite IH. simpl. rewrite <- app_assoc. reflexivity.
Qed.

Lemma evaluate_milestones (table : list Z) (p : Pass) :
  milestones (after (evaluate store seen ty row celebrate counter table p))
  = rev (filter store (map row (newly_earned seen ty counter table)))
    ++ milestones (after p).
Proof.
  unfold evaluate, newly_earned. revert p.
  induction table as [|v rest IH]; intros p; simpl; [reflexivity|].
  rewrite <- existing_existsb.
  destruct (v <=? counter); simpl; [|apply IH].
  destruct (existing seen ty v); simpl; [apply IH|].
  rewrite IH. unfold insertMilestone; simpl.
  destruct (store (row v)); simpl; [|reflexivity].
  rewrite <- app_assoc. reflexivity.
Qed.

End Evaluate.

Section CheckMilestones.

Import JS GoalsMilestones Rules.

Lemma checkMilestones_requests store now profile count st :
  requests (checkMilestones store now profile count st)
  = map (daysCleanRow now) (earned_days_clean now profile (milestones st))
    ++ map (checkInsRow now) (earned_check_ins count (milestones st)).
Proof.
  unfold checkMilestones, earned_days_clean, earned_check_ins, daysClean.
  cbv zeta. rewrite evaluate_requests. f_equal.
  destruct profile as [[[d|]]|]; try reflexivity.
  rewrite evaluate_requests. reflexivity.
Qed.

Lemma checkMilestones_milestones store now profile count st :
  milestones (after (checkMilestones store now profile count st))
  = rev (filter store (requests (checkMilestones store now profile count st)))
    ++ milestones st.
Proof.
  rewrite checkMilestones_requests.
  unfold checkMilestones, earned_days_clean, earned_check_ins, daysClean.
  cbv zeta. rewrite evaluate_milestones.
  rewrite filter_app, rev_app_distr, <- app_assoc. f_equal.
  destruct profile as [[[d|]]|]; try reflexivity.
  rewrite evaluate_milestones. reflexivity.
Qed.

Lemma daysClean_after (d n : Z) :
  daysClean (Date_parse (d + n)) (Some {| recovery_start_date := Some d |})
  = Some n.
Proof.
  unfold daysClean, floor_div, Date_parse. f_equal.
  replace ((d + n) * MS_PER_DAY - d * MS_PER_DAY) with (n * MS_PER_DAY) by lia.
  apply Z.div_mul. discriminate.
Qed.

(** C1.  For every store, time, profile, count of check-ins and state, the
    rows one evaluation hands to [insert] are exactly, in table order: for
    days clean (when a recovery start date is set) the thresholds of
    1, 7, 30, 60, 90, 180, 365, 730 that the counter has reached and for
    which no milestone of the same type and value exists; then the same
    for check-ins completed over 7, 30, 50, 100.  Thirty-five days after
    the start date, with no check-in counted, the thresholds emitted are 1,
    7 and 30 when no milestone exists, and 1 and 30 when the milestone of 7
    days exists. *)
Theorem checkMilestones_emits_newly_earned (store : Store) (now : Z)
    (profile : option Profile) (count : option Z) (st : State) :
  requests (checkMilestones store now profile count st)
  = map (daysCleanRow now) (earned_days_clean now profile (milestones st))
    ++ map (checkInsRow now) (earned_check_ins count (milestones st))
  /\ (forall d : Z,
        map key (requests
                   (checkMilestones store (Date_parse (d + 35))
                      (Some {| recovery_start_date := Some d |}) None
                      no_milestones))
        = [("days_clean", 1); ("days_clean", 7); ("days_clean", 30)]%string)
  /\ (forall d : Z,
        map key (requests
                   (checkMilestones store (Date_parse (d + 35))
                      (Some {| recovery_start_date := Some d |}) None
                      with_seven_days))
        = [("days_clean", 1); ("days_clean", 30)]%string).
Proof.
  split; [apply checkMilestones_requests|].
  split; intros d; rewrite checkMilestones_requests;
    unfold earned_days_clean; rewrite daysClean_after; reflexivity.
Qed.

Lemma In_earned_days_clean now profile seen v :
  In v (earned_days_clean now profile seen)
  <-> exists n, daysClean now profile = Some n
                /\ In v (thresholds "days_clean") /\ v <= n
                /\ existing seen "days_clean" v = false.
Proof.
  unfold earned_days_clean. destruct (daysClean now profile) as [n|].
  - rewrite newly_earned_In. split.
    + intros H. exists n. split; [reflexivity|exact H].
    + intros (n' & E & H). injection E as <-. exact H.
  - split; [intros []|intros (n & E & _); discriminate].
Qed.

Lemma In_earned_check_ins count seen v :
  In v (earned_check_ins count seen)
  <-> In v (thresholds "check_ins_completed") /\ v <= or0 count
      /\ existing seen "check_ins_completed" v = false.
Proof. unfold earned_check_ins. apply newly_earned_In. Qed.

Lemma In_requests store now profile count st m :
  In m (requests (checkMilestones store now profile count st))
  <-> (exists v, In v (earned_days_clean now profile (milestones st))
                 /\ m = daysCleanRow now v)
      \/ (exists v, In v (earned_check_ins count (milestones st))
                    /\ m = checkInsRow now v).
Proof.
  rewrite checkMilestones_requests, in_app_iff, !in_map_iff.
  split; intros [(v & H1 & H2)|(v & H1 & H2)]; [left|right|left|right];
    exists v; auto.
Qed.

(** The milestones of the state after an evaluation: the rows the store
    took, and those that were there. *)
Lemma In_milestones_after store now profile count st m :
  In m (milestones (after (checkMilestones store now profile count st)))
  <-> (In m (requests (checkMilestones store now profile count st))
       /\ store m = true)
      \/ In m (milestones st).
Proof.
  rewrite checkMilestones_milestones, in_app_iff, <- in_rev, filter_In.
  tauto.
Qed.

Lemma filter_filter {A : Type} (f g : A -> bool) (l : list A) :
  filter g (filter f l) = filter (fun a => f a && g a) l.
Proof.
  induction l as [|a l IH]; simpl; [reflexivity|].
  destruct (f a); simpl; [destruct (g a)|]; rewrite IH; reflexivity.
Qed.

Lemma existing_app (l1 l2 : list Milestone) ty v :
  existing (l1 ++ l2) ty v = existing l1 ty v || existing l2 ty v.
Proof. rewrite !existing_existsb. apply existsb_app. Qed.

(** What a second evaluation finds still to be earned in a table: the
    thresholds whose insert the store refused in the first. *)
Lemma newly_earned_after store now profile count st ty row counter table :
  (forall v, milestone_type (row v) = ty /\ milestone_value (row v) = v) ->
  (forall v, In v (newly_earned (milestones st) ty counter table) ->
             In (row v)
                (requests (checkMilestones store now profile count st))) ->
  (forall m, In m (requests (checkMilestones store now profile count st)) ->
             milestone_type m = ty -> m = row (milestone_value m)) ->
  newly_earned
    (milestones (after (checkMilestones store now profile count st)))
    ty counter table
  = filter (fun v => negb (store (row v)))
           (newly_earned (milestones st) ty counter table).
Proof.
  intros Hrow Hreq Hown. unfold newly_earned at 2.
  rewrite filter_filter. unfold newly_earned. apply filter_ext_in.
  intros v Hv. rewrite <- !existing_existsb.
  destruct (v <=? counter) eqn:Hc; [simpl|reflexivity].
  rewrite checkMilestones_milestones, existing_app.
  destruct (existing (milestones st) ty v) eqn:E;
    [rewrite orb_true_r; reflexivity|].
  rewrite orb_false_r. simpl. f_equal.
  assert (Hin : In (row v)
                   (requests (checkMilestones store now profile count st))).
  { apply Hreq, newly_earned_In. apply Z.leb_le in Hc. auto. }
  destruct (store (row v)) eqn:Hs.
  - apply existing_true_iff. exists (row v). split; [|apply Hrow].
    apply in_rev. rewrite rev_involutive. apply filter_In. auto.
  - apply not_true_is_false. intros Ex.
    apply existing_true_iff in Ex as (m & Hm & Hty & Hval).
    apply in_rev in Hm. apply filter_In in Hm as [Hm Hsm].
    rewrite (Hown m Hm Hty), Hval in Hsm. congruence.
Qed.

Lemma requests_of_type store now profile count st m :
  In m (requests (checkMilestones store now profile count st)) ->
  (milestone_type m = "days_clean"%string ->
   m = daysCleanRow now (milestone_value m))
  /\ (milestone_type m = "check_ins_completed"%string ->
      m = checkInsRow now (milestone_value m)).
Proof.
  intros Hm. apply In_requests in Hm as [(v & _ & ->)|(v & _ & ->)];
    split; intros H; try reflexivity; discriminate.
Qed.

Lemma filter_map_row (store : Store) (row : Z -> Milestone) (l : list Z) :
  map row (filter (fun v => negb (store (row v))) l)
  = filter (fun m => negb (store m)) (map row l).
Proof.
  induction l as [|v l IH]; simpl; [reflexivity|].
  destruct (store (row v)); simpl; rewrite IH; reflexivity.
Qed.

(** A second evaluation with the same counters, started from the state
    the first one left, hands to [insert] exactly the rows the store
    refused in the first. *)
Lemma second_evaluation_retries (store store' : Store) now profile count st :
  requests (checkMilestones store' now profile count
              (after (checkMilestones store now profile count st)))
  = filter (fun m => negb (store m))
           (requests (checkMilestones store now profile count st)).
Proof.
  rewrite (checkMilestones_requests store'), (checkMilestones_requests store).
  rewrite filter_app, <- !filter_map_row. f_equal; f_equal.
  - unfold earned_days_clean. destruct (daysClean now profile) as [n|] eqn:En;
      [|reflexivity].
    apply (newly_earned_after store now profile count st
             "days_clean"%string (daysCleanRow now)).
    + auto.
    + intros v Hv. apply In_requests. left. exists v. split; [|reflexivity].
      unfold earned_days_clean. rewrite En. exact Hv.
    + intros m Hm. apply (requests_of_type _ _ _ _ _ _ Hm).
  - unfold earned_check_ins.
    apply (newly_earned_after store now profile count st
             "check_ins_completed"%string (checkInsRow now)).
    + auto.
    + intros v Hv. apply In_requests. right. exists v. auto.
    + intros m Hm. apply (requests_of_type _ _ _ _ _ _ Hm).
Qed.

(** C5.  For every counter value and milestone set: when every insert of
    a first evaluation succeeded, a second evaluation with the same
    counters, started from the state the first one left (the new
    milestones in front of the old ones), hands no row to [insert],
    whatever the store would answer. *)
Theorem checkMilestones_idempotent (store store' : Store) (now : Z)
    (profile : option Profile) (count : option Z) (st : State) :
  (forall m, In m (requests (checkMilestones store now profile count st)) ->
             store m = true) ->
  requests (checkMilestones store' now profile count
              (after (checkMilestones store now profile count st))) = [].
Proof.
  intros Hok. rewrite second_evaluation_retries.
  induction (requests (checkMilestones store now profile count st))
    as [|m l IH]; simpl; [reflexivity|].
  rewrite (Hok m (or_introl eq_refl)). simpl.
  apply IH. intros m' Hm'. apply Hok. right. exact Hm'.
Qed.

(** Day 135 with start date day 100 and 40 check-ins: the first evaluation
    inserts five milestones, the second none. *)
Lemma checkMilestones_idempotent_witness :
  let run := checkMilestones accept_all (Date_parse 135)
               (Some {| recovery_start_date := Some 100 |}) (Some 40) in
  (forall m, In m (requests (run no_milestones)) -> accept_all m = true)
  /\ List.length (requests (run no_milestones)) = 5%nat
  /\ requests (run (after (run no_milestones))) = [].
Proof.
  cbv zeta. split; [intros m _; reflexivity|]. split; [reflexivity|].
  exact (checkMilestones_idempotent accept_all accept_all (Date_parse 135)
           (Some {| recovery_start_date := Some 100 |}) (Some 40)
           no_milestones (fun m _ => eq_refl)).
Defined.

Lemma daysCleanRow_inj now v w :
  daysCleanRow now v = daysCleanRow now w -> v = w.
Proof. intros H. apply (f_equal milestone_value) in H. exact H. Qed.

Lemma checkInsRow_inj now v w :
  checkInsRow now v = checkInsRow now w -> v = w.
Proof. intros H. apply (f_equal milestone_value) in H. exact H. Qed.

Lemma rows_differ now v w : daysCleanRow now v <> checkInsRow now w.
Proof. intros H. apply (f_equal milestone_type) in H. discriminate. Qed.

(** C9, as the code has it.  An evaluation compares two counters with
    their tables: days clean, when a recovery start date is set, and
    check-ins completed.  It emits the days-clean row of a threshold
    exactly when the counter has reached it and no such milestone exists,
    likewise for check-ins, and it emits nothing else: no row of type
    meetings_attended or goals_achieved, the two types whose tables are
    declared and never read. *)
Theorem checkMilestones_two_counters (store : Store) (now : Z)
    (profile : option Profile) (count : option Z) (st : State) :
  let emitted := requests (checkMilestones store now profile count st) in
  (forall v, In (daysCleanRow now v) emitted
             <-> exists n, daysClean now profile = Some n
                           /\ In v (thresholds "days_clean") /\ v <= n
                           /\ existing (milestones st) "days_clean" v = false)
  /\ (forall v, In (checkInsRow now v) emitted
                <-> In v (thresholds "check_ins_completed") /\ v <= or0 count
                    /\ existing (milestones st) "check_ins_completed" v
                       = false)
  /\ Forall (fun m => m = daysCleanRow now (milestone_value m)
                      \/ m = checkInsRow now (milestone_value m)) emitted
  /\ Forall (fun m => milestone_type m <> "meetings_attended"%string
                      /\ milestone_type m <> "goals_achieved"%string) emitted
  /\ thresholds "meetings_attended" = [1; 5; 10; 25; 50; 100]
  /\ thresholds "goals_achieved" = [1; 3; 5; 10].
Proof.
  cbv zeta. split; [|split; [|split; [|split; [|split; reflexivity]]]].
  - intros v. rewrite In_requests, <- In_earned_days_clean. split.
    + intros [(w & Hw & E)|(w & Hw & E)].
      * apply daysCleanRow_inj in E. subst w. exact Hw.
      * exfalso. exact (rows_differ _ _ _ E).
    + intros H. left. exists v. auto.
  - intros v. rewrite In_requests, <- In_earned_check_ins. split.
    + intros [(w & Hw & E)|(w & Hw & E)].
      * exfalso. symmetry in E. exact (rows_differ _ _ _ E).
      * apply checkInsRow_inj in E. subst w. exact Hw.
    + intros H. right. exists v. auto.
  - apply Forall_forall. intros m Hm.
    apply In_requests in Hm as [(v & _ & ->)|(v & _ & ->)]; [left|right];
      reflexivity.
  - apply Forall_forall. intros m Hm.
    apply In_requests in Hm as [(v & _ & ->)|(v & _ & ->)];
      split; discriminate.
Qed.

(** C9 as stated fails: with one goal completed the goals-achieved count
    is 1, the table of goals_achieved has the threshold 1 and no such
    milestone exists, yet the evaluation (400 days clean, 120 check-ins)
    emits rows of the two other types only. *)
Lemma goals_achieved_is_not_evaluated :
  let emitted :=
    requests (checkMilestones accept_all (Date_parse 400)
                (Some {| recovery_start_date := Some 0 |}) (Some 120)
                one_goal_done) in
  completedGoals (goals one_goal_done) = 1
  /\ In 1 (thresholds "goals_achieved")
  /\ existing (milestones one_goal_done) "goals_achieved" 1 = false
  /\ filter (fun m => String.eqb (milestone_type m) "goals_achieved") emitted
     = []
  /\ map key emitted
     = [("days_clean", 1); ("days_clean", 7); ("days_clean", 30);
        ("days_clean", 60); ("days_clean", 90); ("days_clean", 180);
        ("days_clean", 365); ("check_ins_completed", 7);
        ("check_ins_completed", 30); ("check_ins_completed", 50);
        ("check_ins_completed", 100)]%string.
Proof.
  cbv zeta. split; [reflexivity|]. split; [left; reflexivity|].
  split; [reflexivity|]. split; vm_compute; reflexivity.
Qed.

End CheckMilestones.

(** ** Averages *)

Section Averages.

Import JS Rules.

Lemma sum_of_total_of (field : CheckIn -> option Z) (rows : list CheckIn) :
  sum_of field rows = total_of field rows.
Proof.
  unfold sum_of.
  assert (H : forall acc,
             fold_left (fun sum item => sum + or0 (field item)) rows acc
             = acc + total_of field rows).
  { induction rows as [|r rest IH]; intros acc; simpl; [lia|].
    rewrite IH. lia. }
  rewrite H. lia.
Qed.

Lemma fold_add_total_of (field : CheckIn -> option Z) (rows : list CheckIn) :
  fold_left Z.add (map (fun c => or0 (field c)) rows) 0 = total_of field rows.
Proof.
  assert (H : forall acc,
             fold_left Z.add (map (fun c => or0 (field c)) rows) acc
             = acc + total_of field rows).
  { induction rows as [|r rest IH]; intros acc; simpl; [lia|].
    rewrite IH. lia. }
  rewrite H. lia.
Qed.

Lemma average_of_rows (field : CheckIn -> option Z) (c : CheckIn)
    (rest : list CheckIn) :
  div (of_Z (sum_of field (c :: rest)))
      (of_Z (Z.of_nat (List.length (c :: rest))))
  = average_rule field (c :: rest).
Proof.
  simpl List.length. rewrite div_by_length, sum_of_total_of. reflexivity.
Qed.

Lemma fetchStats_avgMood_rule (rows : list CheckIn) :
  Dashboard.fetchStats_avgMood (Some rows) = average_rule mood_score rows.
Proof.
  destruct rows as [|c rest]; [reflexivity|].
  unfold Dashboard.fetchStats_avgMood. apply average_of_rows.
Qed.

Lemma slice_last_nonempty {A : Type} (n : nat) (a : A) (l : list A) :
  exists b r, ProgressCharts.slice_last (S n) (a :: l) = b :: r.
Proof.
  unfold ProgressCharts.slice_last.
  destruct (skipn (List.length (a :: l) - S n) (a :: l)) as [|b r] eqn:E.
  - apply (f_equal (@List.length A)) in E. rewrite length_skipn in E.
    change (List.length (a :: l)) with (S (List.length l)) in E.
    change (@List.length A []) with 0%nat in E. lia.
  - eauto.
Qed.

Lemma avgEnergy_rule (c : CheckIn) (rest : list CheckIn) :
  ProgressCharts.avgEnergy (c :: rest)
  = average_rule energy_level (ProgressCharts.slice_last 5 (c :: rest)).
Proof.
  unfold ProgressCharts.avgEnergy, ProgressCharts.energyTrend.
  destruct (slice_last_nonempty 4 c rest) as (b & r & E). rewrite E.
  rewrite fold_add_total_of, length_map. simpl List.length.
  rewrite div_by_length. reflexivity.
Qed.

(** C6, as the code has it.  The average mood of the dashboard is the sum
    of the mood scores (a missing score counted as 0) over the number of
    records, and 0 for an empty or missing set; over moods 8 and 4 it is
    6.  The Average Mood card shows the same quotient and is not rendered
    for an empty set.  The one energy average of the code is the average
    over the last five records of a non-empty set. *)
Theorem averages_in_the_code :
  (forall rows, Dashboard.fetchStats_avgMood (Some rows)
                = average_rule mood_score rows)
  /\ Dashboard.fetchStats_avgMood None = of_Z 0
  /\ Dashboard.fetchStats_avgMood (Some [checkin_with 8 3; checkin_with 4 3])
     =j= of_Z 6
  /\ (forall tr, ProgressCharts.summary [] tr = None)
  /\ (forall c rest tr,
        option_map ProgressCharts.summary_averageMood
                   (ProgressCharts.summary (c :: rest) tr)
        = Some (average_rule mood_score (c :: rest)))
  /\ (forall c rest,
        ProgressCharts.avgEnergy (c :: rest)
        = average_rule energy_level
            (ProgressCharts.slice_last 5 (c :: rest))).
Proof.
  split; [exact fetchStats_avgMood_rule|].
  split; [reflexivity|].
  split; [vm_compute; reflexivity|].
  split; [reflexivity|].
  split.
  - intros c rest tr. simpl. f_equal. apply average_of_rows.
  - exact avgEnergy_rule.
Qed.

(** C6 as stated fails for energy: over six records with energies
    5, 1, 1, 1, 1, 1 the sum over the count is 10/6, and the energy
    average of the code is 1. *)
Lemma avgEnergy_is_not_average_of_all :
  ProgressCharts.avgEnergy six_days =j= of_Z 1
  /\ average_rule energy_level six_days =j= Fin (10 # 6)
  /\ ~ (ProgressCharts.avgEnergy six_days
        =j= average_rule energy_level six_days).
Proof.
  split; [vm_compute; reflexivity|].
  split; [vm_compute; reflexivity|].
  vm_compute. discriminate.
Qed.

End Averages.

(** ** Check-in consistency *)

Section Consistency.

Import JS ProgressCharts.

Lemma toISODate_setDate_minus (t n : Z) :
  toISODate (setDate_minus t n) = toISODate t - n.
Proof.
  unfold toISODate, setDate_minus.
  replace (t - n * MS_PER_DAY) with (t + (- n) * MS_PER_DAY) by lia.
  rewrite Z.div_add by discriminate. lia.
Qed.

Lemma insert_by_date_In (asc : bool) (c x : CheckIn) (l : list CheckIn) :
  In x (insert_by_date asc c l) <-> x = c \/ In x l.
Proof.
  induction l as [|y r IH]; simpl.
  - intuition.
  - destruct (if asc then _ else _); simpl; [intuition|].
    rewrite IH. intuition.
Qed.

Lemma order_by_date_In (asc : bool) (x : CheckIn) (table : list CheckIn) :
  In x (order_by_date asc table) <-> In x table.
Proof.
  induction table as [|c r IH]; simpl; [tauto|].
  rewrite insert_by_date_In, IH. intuition.
Qed.

(** The rows [fetchData] keeps for a range of N days are those of the N + 1
    calendar days from N days ago to today, and any later ones. *)
Lemma fetchData_In (now : Z) (tr : TimeRange) (table : list CheckIn)
    (c : CheckIn) :
  In c (fetchData now tr table)
  <-> In c table /\ toISODate now - parseInt tr <= date c.
Proof.
  unfold fetchData, gte_date.
  rewrite order_by_date_In, filter_In, toISODate_setDate_minus, Z.leb_le.
  tauto.
Qed.

(** The consistency shown is 100 * count / N rounded to the nearest
    integer, halves upwards. *)
Lemma consistency_value (checkIns : list CheckIn) (tr : TimeRange) :
  consistency checkIns tr
  = of_Z ((200 * Z.of_nat (List.length checkIns) + parseInt tr)
          / (2 * parseInt tr)).
Proof.
  unfold consistency. set (n := Z.of_nat (List.length checkIns)).
  assert (Hd : div (of_Z n) (of_Z (parseInt tr))
               = Fin (inject_Z n / inject_Z (parseInt tr))).
  { destruct tr; reflexivity. }
  rewrite Hd.
  change (Math_round (mul (Fin (inject_Z n / inject_Z (parseInt tr)))
                          (of_Z 100)))
    with (of_Z (Qfloor (inject_Z n / inject_Z (parseInt tr) * inject_Z 100
                        + (1 # 2)))).
  f_equal. rewrite Zdiv_Qdiv. apply Qfloor_comp.
  rewrite inject_Z_plus, !inject_Z_mult.
  assert (~ inject_Z (parseInt tr) == 0)%Q.
  { destruct tr; discriminate. }
  change (inject_Z 200) with (200 # 1)%Q. change (inject_Z 2) with (2 # 1)%Q.
  change (inject_Z 100) with (100 # 1)%Q.
  field. auto.
Qed.

(** It is not clamped: more records than days give more than 100. *)
Lemma consistency_not_clamped (checkIns : list CheckIn) (tr : TimeRange) :
  parseInt tr < Z.of_nat (List.length checkIns) ->
  exists n, consistency checkIns tr = of_Z n /\ 100 < n.
Proof.
  intros H. rewrite consistency_value. eexists. split; [reflexivity|].
  set (len := Z.of_nat (List.length checkIns)) in *. clearbody len.
  assert (Hn : 0 < parseInt tr <= 90) by (destruct tr; simpl; lia).
  set (N := parseInt tr) in *. clearbody N.
  apply Z.lt_le_trans with (m := (202 * N) / (2 * N)).
  - replace (202 * N) with (101 * (2 * N)) by lia.
    rewrite Z.div_mul by lia. lia.
  - apply Z.div_le_mono; lia.
Qed.

(** Distinct integers of a range of [n] are at most [n]. *)
Lemma NoDup_range_length (l : list Z) (lo : Z) (n : nat) :
  NoDup l -> (forall x, In x l -> lo <= x < lo + Z.of_nat n) ->
  (List.length l <= n)%nat.
Proof.
  intros Hnd Hr.
  rewrite <- (length_map (fun x => Z.to_nat (x - lo)) l).
  apply Nat.le_trans with (m := List.length (seq 0 n));
    [|rewrite length_seq; apply Nat.le_refl].
  apply NoDup_incl_length.
  - apply NoDup_map_NoDup_ForallPairs; [|exact Hnd].
    intros x y Hx Hy E. pose proof (Hr x Hx). pose proof (Hr y Hy). lia.
  - intros k Hk. apply in_map_iff in Hk as (x & <- & Hx).
    pose proof (Hr x Hx). apply in_seq. lia.
Qed.

(** Records on distinct days of a window of N days give at most 100. *)
Lemma consistency_at_most_100 (checkIns : list CheckIn) (tr : TimeRange)
    (first_day : Z) :
  NoDup (map date checkIns) ->
  (forall c, In c checkIns ->
             first_day <= date c < first_day + parseInt tr) ->
  exists n, consistency checkIns tr = of_Z n /\ n <= 100.
Proof.
  intros Hnd Hr. rewrite consistency_value. eexists. split; [reflexivity|].
  assert (Hlen : Z.of_nat (List.length checkIns) <= parseInt tr).
  { rewrite <- (length_map date).
    assert (H : (List.length (map date checkIns)
                 <= Z.to_nat (parseInt tr))%nat).
    { apply (NoDup_range_length _ first_day); [exact Hnd|].
      intros x Hx. apply in_map_iff in Hx as (c & <- & Hc).
      pose proof (Hr c Hc). destruct tr; simpl in *; lia. }
    destruct tr; simpl in *; lia. }
  set (len := Z.of_nat (List.length checkIns)) in *. clearbody len.
  assert (Hn : 0 < parseInt tr) by (destruct tr; reflexivity).
  set (N := parseInt tr) in *. clearbody N.
  apply Z.lt_succ_r. apply Z.div_lt_upper_bound; lia.
Qed.

(** C8, where the code departs from it.  With the 7-day range chosen at
    noon of day 10 and one check-in a day from day 3 to day 10 (no two on
    the same day, none in the future), [fetchData] keeps all eight
    records, and the consistency shown is 114. *)
Theorem consistency_exceeds_100_without_duplicates :
  let now := Date_parse 10 + 12 * 60 * 60 * 1000 in
  let checkIns := fetchData now Range7 eight_days in
  NoDup (map date eight_days)
  /\ Forall (fun c => date c <= toISODate now) eight_days
  /\ checkIns = eight_days
  /\ consistency checkIns Range7 = of_Z 114
  /\ option_map summary_consistency (summary checkIns Range7)
     = Some (of_Z 114).
Proof.
  cbv zeta. split.
  - repeat constructor; simpl; intuition discriminate.
  - split; [repeat constructor; vm_compute; discriminate|].
    split; [vm_compute; reflexivity|].
    split; vm_compute; reflexivity.
Qed.

End Consistency.

(* ================================================================== *)
(** * Further properties of the code *)

(** ** Goal progress and days until the target *)

Section GoalProgressRange.

Import JS GoalsMilestones Rules.

Ltac q_cases :=
  repeat match goal with
  | |- context [Qle_bool ?a ?b] =>
      let E := fresh "E" in
      destruct (Qle_bool a b) eqn:E;
      [apply Qle_bool_iff in E | apply Qle_bool_false in E]
  end.

Lemma clamp_0_100_range (x : number) :
  match Math_min (of_Z 100) (Math_max (of_Z 0) x) with
  | Fin q => (0 <= q <= 100)%Q
  | NaN => x = NaN
  | _ => False
  end.
Proof.
  destruct x as [q| | |]; try reflexivity.
  - unfold Math_min, Math_max, of_Z, ltb, isNaN; simpl orb.
    q_cases; cbn [negb]; q_cases; cbn [negb];
      unfold inject_Z in *; lra.
  - vm_compute. split; discriminate.
  - vm_compute. split; discriminate.
Qed.

Lemma percent_NaN (e t : Z) :
  mul (div (Fin (in_days e)) (Fin (in_days t))) (of_Z 100) = NaN ->
  e = 0 /\ t = 0.
Proof.
  unfold div. rewrite !in_days_zero.
  destruct (Z.eqb_spec t 0) as [->|Ht].
  - destruct (Z.eqb_spec e 0) as [->|He]; [auto|].
    destruct (Qle_bool 0 (in_days e)); discriminate.
  - discriminate.
Qed.

(** The progress is a number from 0 to 100, or NaN in the degenerate
    case only. *)
Lemma getGoalProgress_cases (now : Z) (goal : Goal) :
  match getGoalProgress now goal with
  | Fin q => (0 <= q <= 100)%Q
  | NaN =>
      is_completed goal = false
      /\ exists d, target_date goal = Some d
                   /\ Date_parse d = created_at goal
                   /\ now = created_at goal
  | _ => False
  end.
Proof.
  unfold getGoalProgress.
  destruct (is_completed goal) eqn:Hc; [split; discriminate|].
  destruct (target_date goal) as [d|] eqn:Ht; [|split; discriminate].
  cbv zeta. rewrite !div_days.
  pose proof (clamp_0_100_range
                (mul (div (Fin (in_days (now - created_at goal)))
                          (Fin (in_days (Date_parse d - created_at goal))))
                     (of_Z 100))) as H.
  destruct (Math_min _ _); try exact H.
  apply percent_NaN in H. split; [reflexivity|].
  exists d. split; [reflexivity|]. lia.
Qed.

(** X1.  For every goal and every time, the progress is NaN exactly when
    the goal is not completed, its target date is the instant of its
    creation and it is evaluated at that same instant; in every other
    case it is a number between 0 and 100.  It is never infinite. *)
Theorem getGoalProgress_range (now : Z) (goal : Goal) :
  (getGoalProgress now goal = NaN
   <-> is_completed goal = false
       /\ exists d, target_date goal = Some d
                    /\ Date_parse d = created_at goal
                    /\ now = created_at goal)
  /\ match getGoalProgress now goal with
     | Fin q => (0 <= q <= 100)%Q
     | NaN => True
     | _ => False
     end.
Proof.
  pose proof (getGoalProgress_cases now goal) as H. split; [split|].
  - intros E. rewrite E in H. exact H.
  - intros (Hc & d & Ht & Hd & Hn).
    unfold getGoalProgress. rewrite Hc, Ht. cbv zeta.
    rewrite !div_days, Hd, Hn, Z.sub_diag. vm_compute. reflexivity.
  - destruct (getGoalProgress now goal); try exact H. exact I.
Qed.

Lemma last_char_append (a b : string) :
  b <> EmptyString -> last_char (a ++ b) = last_char b.
Proof.
  intros Hb. induction a as [|c a IH]; [reflexivity|].
  simpl. rewrite IH. destruct (a ++ b)%string eqn:E; [|reflexivity].
  destruct a; simpl in E; [contradiction|discriminate].
Qed.

(** The status of a number of days is "Due today" or "... overdue" exactly
    for a number that is not positive. *)
Lemma status_rule_due (n : Z) : due_or_overdue (status_rule n) <-> n <= 0.
Proof.
  unfold status_rule. split.
  - intros H. destruct (Z.ltb_spec n 0) as [|Hn]; [lia|].
    destruct (Z.eqb_spec n 0) as [|Hn0]; [lia|exfalso].
    set (s := if n =? 1 then "1 day left"%string
              else (Number_toString n ++ " days left")%string) in *.
    assert (Hl : last_char s = Some "t"%char).
    { unfold s. destruct (n =? 1); [reflexivity|].
      rewrite last_char_append by discriminate. reflexivity. }
    destruct H as [H|(k & _ & H)]; rewrite H in Hl.
    + discriminate.
    + rewrite last_char_append in Hl by discriminate. discriminate.
  - intros Hn. destruct (Z.ltb_spec n 0) as [Hlt|Hge].
    + right. exists (Z.abs n). split; [lia|reflexivity].
    + replace (n =? 0) with true by (symmetry; apply Z.eqb_eq; lia).
      left. reflexivity.
Qed.

(** X2.  For a goal that is not completed and whose target date is after
    its creation, the two displays agree: the progress bar is at 100
    exactly when the status reads "Due today" or "N days overdue", and
    that is exactly when the target instant is reached. *)
Theorem progress_is_100_iff_due (now : Z) (goal : Goal) (d : Z) :
  is_completed goal = false ->
  target_date goal = Some d ->
  created_at goal < Date_parse d ->
  (getGoalProgress now goal =j= of_Z 100
   <-> due_or_overdue (getDaysUntilTarget now d))
  /\ (due_or_overdue (getDaysUntilTarget now d) <-> Date_parse d <= now).
Proof.
  intros Hc Ht Hlt.
  assert (Hdue : due_or_overdue (getDaysUntilTarget now d)
                 <-> Date_parse d <= now).
  { rewrite getDaysUntilTarget_status_rule, status_rule_due.
    pose proof (ceil_div_bounds (Date_parse d - now) MS_PER_DAY
                  MS_PER_DAY_pos) as B.
    assert (0 < MS_PER_DAY) by exact MS_PER_DAY_pos. split; intros; nia. }
  split; [|exact Hdue]. rewrite Hdue.
  pose proof (getGoalProgress_regular now goal d Hc Ht Hlt) as R.
  cbv zeta in R.
  set (e := now - created_at goal) in *.
  set (t := Date_parse d - created_at goal) in *.
  assert (Ht0 : 0 < t) by (unfold t; lia).
  destruct (Z.leb_spec e 0) as [He|He].
  - split.
    + intros H. exfalso.
      destruct (getGoalProgress now goal); simpl in *; try contradiction.
      rewrite R in H. discriminate.
    + intros H. unfold e, t in *. lia.
  - destruct (Z.leb_spec t e) as [Hte|Hte].
    + split; [intros _; unfold e, t in *; lia|intros _; exact R].
    + split; [|intros H; unfold e, t in *; lia].
      intros H. exfalso.
      destruct (percent_sign e t Ht0) as (_ & _ & _ & F4).
      specialize (F4 Hte).
      destruct (getGoalProgress now goal); simpl in *; try contradiction.
      rewrite R in H. rewrite H in F4. revert F4. apply Qlt_irrefl.
Qed.

(** A goal created at day 0 with target day 10, seen at the start of day
    10. *)
Lemma progress_is_100_iff_due_witness :
  let goal := goal_of 0 (Some 10) false in
  let now := Date_parse 10 in
  (is_completed goal = false /\ target_date goal = Some 10
   /\ created_at goal < Date_parse 10)
  /\ (getGoalProgress now goal =j= of_Z 100
      <-> due_or_overdue (getDaysUntilTarget now 10))
  /\ (due_or_overdue (getDaysUntilTarget now 10) <-> Date_parse 10 <= now).
Proof.
  cbv zeta.
  assert (H : created_at (goal_of 0 (Some 10) false) < Date_parse 10)
    by (vm_compute; reflexivity).
  split; [split; [reflexivity|split; [reflexivity|exact H]]|].
  exact (progress_is_100_iff_due (Date_parse 10) (goal_of 0 (Some 10) false)
           10 eq_refl eq_refl H).
Defined.

Lemma ceil_div_next_day (a : Z) :
  ceil_div (a - MS_PER_DAY) MS_PER_DAY = ceil_div a MS_PER_DAY - 1.
Proof.
  apply ceil_div_unique; [exact MS_PER_DAY_pos|].
  pose proof (ceil_div_bounds a MS_PER_DAY MS_PER_DAY_pos). lia.
Qed.

(** X3.  For every target date and time, 24 hours later the status is that
    of one day less: with [n] the number of days until the target now
    (the ceiling), the status now is the rule at [n] and the status a day
    later is the rule at [n - 1]. *)
Theorem getDaysUntilTarget_next_day (now targetDate : Z) :
  exists n : Z,
    (n - 1) * MS_PER_DAY < Date_parse targetDate - now <= n * MS_PER_DAY
    /\ getDaysUntilTarget now targetDate = status_rule n
    /\ getDaysUntilTarget (now + MS_PER_DAY) targetDate = status_rule (n - 1).
Proof.
  exists (ceil_div (Date_parse targetDate - now) MS_PER_DAY).
  split; [apply ceil_div_bounds, MS_PER_DAY_pos|].
  rewrite !getDaysUntilTarget_status_rule. split; [reflexivity|].
  f_equal. rewrite <- ceil_div_next_day. f_equal. lia.
Qed.

End GoalProgressRange.

(** ** The list of goals *)

Section GoalsListFacts.

Import JS GoalsList.

Lemma toggle_goals_In (now : Z) (goal : Row) (st : State) (g' : Row) :
  In g' (goals (toggleGoalCompletion true now goal st))
  <-> exists g, In g (goals st)
        /\ g' = if String.eqb (goal_id g) (goal_id goal)
                then set_completion g (negb (is_completed (fields goal)))
                       (if negb (is_completed (fields goal))
                        then Some (toISODate now) else None)
                else g.
Proof.
  unfold toggleGoalCompletion; cbv zeta; simpl. rewrite in_map_iff.
  split; intros (g & H1 & H2); exists g; [split; [exact H2|auto]|auto].
Qed.

(** X4.  When every goal of the list has a completion date exactly if it
    is completed, this still holds after [toggleGoalCompletion], whether
    the store accepted the update or not; the ids of the list are
    unchanged, in the same order, and goals with another id are
    untouched. *)
Theorem toggleGoalCompletion_keeps_dates (update_ok : bool) (now : Z)
    (goal : Row) (st : State) :
  Forall dated_iff_completed (goals st) ->
  Forall dated_iff_completed
         (goals (toggleGoalCompletion update_ok now goal st))
  /\ map goal_id (goals (toggleGoalCompletion update_ok now goal st))
     = map goal_id (goals st)
  /\ (forall g, In g (goals st) -> goal_id g <> goal_id goal ->
                In g (goals (toggleGoalCompletion update_ok now goal st))).
Proof.
  intros Hinv. destruct update_ok; [|repeat split; auto].
  split; [|split].
  - apply Forall_forall. intros g' Hg'.
    apply toggle_goals_In in Hg' as (g & Hg & ->).
    rewrite Forall_forall in Hinv.
    destruct (String.eqb (goal_id g) (goal_id goal)); [|apply Hinv, Hg].
    unfold dated_iff_completed, set_completion; simpl.
    destruct (is_completed (fields goal)); simpl; split; intros H;
      try discriminate; try reflexivity; contradiction.
  - unfold toggleGoalCompletion; cbv zeta; simpl. rewrite map_map.
    apply map_ext. intros g.
    destruct (String.eqb (goal_id g) (goal_id goal)); reflexivity.
  - intros g Hg Hne. apply toggle_goals_In. exists g. split; [exact Hg|].
    destruct (String.eqb_spec (goal_id g) (goal_id goal)); [contradiction|].
    reflexivity.
Qed.

(** Completing goal "a" of the two sample goals on day 9. *)
Lemma toggleGoalCompletion_keeps_dates_witness :
  Forall dated_iff_completed (goals sample_goals)
  /\ Forall dated_iff_completed
       (goals (toggleGoalCompletion true (Date_parse 9)
                 (sample_row "a" false None) sample_goals)).
Proof.
  assert (H : Forall dated_iff_completed (goals sample_goals)).
  { repeat constructor; simpl; intros; try discriminate; try reflexivity;
      try contradiction. }
  split; [exact H|].
  exact (proj1 (toggleGoalCompletion_keeps_dates true (Date_parse 9)
                  (sample_row "a" false None) sample_goals H)).
Defined.

Lemma set_completion_same (g : Row) :
  is_completed (fields g) = false -> completed_date (fields g) = None ->
  set_completion g false None = g.
Proof.
  destruct g as [i [t td c cd p ca]]; simpl. intros -> ->. reflexivity.
Qed.

(** X5.  Completing an open goal and then marking it incomplete again
    (both updates accepted) gives back the list of goals as it was,
    provided the rows of the list with that id were open and without
    completion date. *)
Theorem toggleGoalCompletion_twice (now now' : Z) (goal : Row) (st : State) :
  (forall g, In g (goals st) -> goal_id g = goal_id goal ->
             is_completed (fields g) = false
             /\ completed_date (fields g) = None) ->
  is_completed (fields goal) = false ->
  let done := set_completion goal true (Some (toISODate now)) in
  goals (toggleGoalCompletion true now' done
           (toggleGoalCompletion true now goal st))
  = goals st.
Proof.
  intros Hsame Hc done. unfold toggleGoalCompletion; cbv zeta.
  rewrite Hc. simpl. rewrite map_map.
  rewrite <- (map_id (goals st)) at 2. apply map_ext_in. intros g Hg.
  destruct (String.eqb_spec (goal_id g) (goal_id goal)) as [E|E].
  - simpl. rewrite E, String.eqb_refl.
    destruct (Hsame g Hg E) as [H1 H2].
    rewrite <- (set_completion_same g H1 H2) at 2.
    unfold set_completion; simpl. rewrite E. reflexivity.
  - destruct (String.eqb_spec (goal_id g) (goal_id goal)); [contradiction|].
    reflexivity.
Qed.

(** Goal "a" of the sample goals, completed on day 9 and reopened on day
    10. *)
Lemma toggleGoalCompletion_twice_witness :
  let goal := sample_row "a" false None in
  (forall g, In g (goals sample_goals) -> goal_id g = goal_id goal ->
             is_completed (fields g) = false
             /\ completed_date (fields g) = None)
  /\ goals (toggleGoalCompletion true (Date_parse 10)
              (set_completion goal true (Some (toISODate (Date_parse 9))))
              (toggleGoalCompletion true (Date_parse 9) goal sample_goals))
     = goals sample_goals.
Proof.
  cbv zeta.
  assert (H : forall g, In g (goals sample_goals) ->
                goal_id g = goal_id (sample_row "a" false None) ->
                is_completed (fields g) = false
                /\ completed_date (fields g) = None).
  { intros g [<-|[<-|[]]] E; [split; reflexivity|discriminate]. }
  split; [exact H|].
  exact (toggleGoalCompletion_twice (Date_parse 9) (Date_parse 10)
           (sample_row "a" false None) sample_goals H eq_refl).
Defined.

Lemma counts_add_up (gs : list Row) :
  activeCount gs + completedCount gs = Z.of_nat (List.length gs).
Proof.
  unfold activeCount, completedCount.
  induction gs as [|g gs IH]; [reflexivity|].
  cbn [filter List.length].
  destruct (is_completed (fields g)); cbn [negb List.length]; lia.
Qed.

Lemma completed_le_length (gs : list Row) :
  (List.length (filter (fun g => is_completed (fields g)) gs)
   <= List.length gs)%nat.
Proof. apply filter_length_le. Qed.

(** The check of the rates, for every number of goals up to 400. *)
Lemma rates_ok_400 : rates_ok 400 = true.
Proof. vm_compute. reflexivity. Qed.

Lemma rates_ok_at (N c n : nat) :
  rates_ok N = true -> (0 < n <= N)%nat -> (c <= n)%nat ->
  rate_ok (Z.of_nat c) (Z.of_nat n) = true.
Proof.
  unfold rates_ok. rewrite forallb_forall. intros H Hn Hc.
  specialize (H n). rewrite forallb_forall in H.
  apply H; apply in_seq; lia.
Qed.

(** X6.  The three figures above the list of goals, for up to 400 goals:
    the active and the completed goals add up to all goals; the success
    rate is an integer between 0 and 100, which is 0 for an empty list
    and otherwise an integer nearest to 100 * completed / all, the
    quotient and the product being rounded as binary64 numbers (so that
    an exact half can go either way: [successRate_of_23_in_40]). *)
Theorem goal_figures (gs : list Row) :
  (List.length gs <= 400)%nat ->
  activeCount gs + completedCount gs = Z.of_nat (List.length gs)
  /\ exists r : Z,
       successRate gs = Some r /\ 0 <= r <= 100
       /\ (gs <> [] \/ r = 0)
       /\ - Z.of_nat (List.length gs)
          <= 200 * completedCount gs - 2 * Z.of_nat (List.length gs) * r
          <= Z.of_nat (List.length gs).
Proof.
  intros Hlen. split; [apply counts_add_up|].
  destruct gs as [|g gs'] eqn:Egs.
  - exists 0. split; [reflexivity|]. split; [lia|].
    split; [right; reflexivity|]. cbn. lia.
  - rewrite <- Egs in *.
    pose proof (completed_le_length gs) as Hc.
    unfold successRate, completedCount.
    set (c := List.length (filter (fun g => is_completed (fields g)) gs)) in *.
    set (n := List.length gs) in *.
    assert (Hn : (0 < n)%nat) by (unfold n; rewrite Egs; cbn; lia).
    replace (0 <? Z.of_nat n) with true by (symmetry; apply Z.ltb_lt; lia).
    change (Binary64.Math_round _) with (rate_of (Z.of_nat c) (Z.of_nat n)).
    pose proof (rates_ok_at 400 c n rates_ok_400 (conj Hn Hlen) Hc) as Hok.
    unfold rate_ok in Hok.
    destruct (rate_of (Z.of_nat c) (Z.of_nat n)) as [r|]; [|discriminate].
    apply andb_true_iff in Hok as [Hok H4].
    apply andb_true_iff in Hok as [Hok H3].
    apply andb_true_iff in Hok as [H1 H2].
    apply Z.leb_le in H1, H2, H3, H4.
    exists r. split; [reflexivity|]. split; [lia|].
    split; [left; rewrite Egs; discriminate|]. lia.
Qed.

(** The two sample goals, one of them completed: 50. *)
Lemma goal_figures_witness :
  (List.length (goals sample_goals) <= 400)%nat
  /\ activeCount (goals sample_goals) + completedCount (goals sample_goals)
     = 2
  /\ successRate (goals sample_goals) = Some 50.
Proof.
  assert (H : (List.length (goals sample_goals) <= 400)%nat)
    by (simpl; lia).
  split; [exact H|].
  destruct (goal_figures (goals sample_goals) H) as [H1 _].
  split; [exact H1|]. vm_compute. reflexivity.
Defined.

(** With 23 goals completed of 40 the exact percentage is 57.5; the
    binary64 quotient 23 / 40 is below 0.575, its product with 100 is
    57.49999999999999, and the rate shown is 57.  With 1 completed of 8
    every step is exact and 12.5 is rounded to 13. *)
Example successRate_of_23_in_40 :
  completedCount forty_goals = 23
  /\ Z.of_nat (List.length forty_goals) = 40
  /\ successRate forty_goals = Some 57
  /\ rate_of 1 8 = Some 13.
Proof. repeat split; vm_compute; reflexivity. Qed.

End GoalsListFacts.

(** ** What an evaluation of the milestones leaves *)

Section MilestoneState.

Import JS GoalsMilestones Rules.

(** The celebration a loop leaves: the last row the store took, when the
    loop celebrates. *)
Lemma evaluate_showCelebration store seen ty row celebrate counter table p :
  showCelebration (after (evaluate store seen ty row celebrate counter table p))
  = if celebrate then
      match rev (filter store (map row (newly_earned seen ty counter table))) with
      | m :: _ => Some m
      | [] => showCelebration (after p)
      end
    else showCelebration (after p).
Proof.
  unfold evaluate, newly_earned. revert p.
  induction table as [|v rest IH]; intros p; simpl.
  - destruct celebrate; reflexivity.
  - rewrite <- existing_existsb.
    destruct (v <=? counter); simpl; [|apply IH].
    destruct (existing seen ty v); simpl; [apply IH|].
    rewrite IH. unfold insertMilestone; simpl.
    destruct celebrate; [|destruct (store (row v)); reflexivity].
    destruct (store (row v)) eqn:Hs; simpl; [|reflexivity].
    destruct (rev (filter store (map row (filter _ rest)))) as [|m l] eqn:E;
      simpl; reflexivity.
Qed.

Lemma evaluate_goals store seen ty row celebrate counter table p :
  goals (after (evaluate store seen ty row celebrate counter table p))
  = goals (after p).
Proof.
  unfold evaluate. revert p.
  induction table as [|v rest IH]; intros p; simpl; [reflexivity|].
  destruct (v <=? counter); simpl; [|apply IH].
  destruct (existing seen ty v); simpl; [apply IH|].
  rewrite IH. unfold insertMilestone; simpl.
  destruct (store (row v)); reflexivity.
Qed.

(** X7.  After an evaluation, the celebration shown is the days-clean
    milestone of the largest newly reached threshold that the store
    accepted; when the store accepted no new days-clean milestone the
    celebration is what it was.  A new check-ins milestone is never
    celebrated. *)
Theorem checkMilestones_celebrates_last_days_clean store now profile count st :
  showCelebration (after (checkMilestones store now profile count st))
  = match rev (filter store
                 (map (daysCleanRow now)
                      (earned_days_clean now profile (milestones st)))) with
    | m :: _ => Some m
    | [] => showCelebration st
    end.
Proof.
  unfold checkMilestones, earned_days_clean, daysClean. cbv zeta.
  rewrite evaluate_showCelebration.
  destruct profile as [[[d|]]|]; try reflexivity.
  rewrite evaluate_showCelebration. reflexivity.
Qed.

(** X8.  An evaluation leaves the goals as they are and only puts
    milestones in front of the list: the rows the store accepted, the
    last accepted first, followed by all former milestones in their
    order. *)
Theorem checkMilestones_only_adds store now profile count st :
  let st' := after (checkMilestones store now profile count st) in
  goals st' = goals st
  /\ milestones st'
     = rev (filter store (requests (checkMilestones store now profile count st)))
       ++ milestones st.
Proof.
  cbv zeta. split; [|apply checkMilestones_milestones].
  unfold checkMilestones. cbv zeta. rewrite evaluate_goals.
  destruct profile as [[[d|]]|]; try reflexivity.
  rewrite evaluate_goals. reflexivity.
Qed.

Lemma newly_earned_NoDup seen ty counter table :
  NoDup table -> NoDup (newly_earned seen ty counter table).
Proof. intros H. apply NoDup_filter, H. Qed.

Lemma requests_keys store now profile count st :
  map key (requests (checkMilestones store now profile count st))
  = map (fun v => ("days_clean"%string, v))
        (earned_days_clean now profile (milestones st))
    ++ map (fun v => ("check_ins_completed"%string, v))
           (earned_check_ins count (milestones st)).
Proof.
  rewrite checkMilestones_requests, map_app, !map_map. reflexivity.
Qed.

Lemma earned_days_clean_NoDup now profile seen :
  NoDup (earned_days_clean now profile seen).
Proof.
  unfold earned_days_clean. destruct (daysClean now profile); [|constructor].
  apply newly_earned_NoDup.
  repeat constructor; simpl; intuition discriminate.
Qed.

Lemma earned_check_ins_NoDup count seen :
  NoDup (earned_check_ins count seen).
Proof.
  apply newly_earned_NoDup.
  repeat constructor; simpl; intuition discriminate.
Qed.

Lemma NoDup_map_pair (ty : string) (l : list Z) :
  NoDup l -> NoDup (map (fun v => (ty, v)) l).
Proof.
  intros H. apply NoDup_map_NoDup_ForallPairs; [|exact H].
  intros x y _ _ E. injection E. auto.
Qed.

Lemma requests_keys_NoDup store now profile count st :
  NoDup (map key (requests (checkMilestones store now profile count st))).
Proof.
  rewrite requests_keys. apply NoDup_app.
  - apply NoDup_map_pair, earned_days_clean_NoDup.
  - apply NoDup_map_pair, earned_check_ins_NoDup.
  - intros [t v] H1 H2. apply in_map_iff in H1 as (? & E1 & _).
    apply in_map_iff in H2 as (? & E2 & _). congruence.
Qed.

Lemma request_not_recorded store now profile count st m :
  In m (requests (checkMilestones store now profile count st)) ->
  ~ In (key m) (map key (milestones st)).
Proof.
  intros Hm Hk. apply in_map_iff in Hk as (m' & Ek & Hm').
  unfold key in Ek. injection Ek as Et Ev.
  assert (Hex : existing (milestones st) (milestone_type m) (milestone_value m)
                = true).
  { apply existing_true_iff. exists m'. auto. }
  apply In_requests in Hm as [(v & Hv & ->)|(v & Hv & ->)].
  - apply In_earned_days_clean in Hv as (n & _ & _ & _ & Hf).
    simpl in Hex. congruence.
  - apply In_earned_check_ins in Hv as (_ & _ & Hf).
    simpl in Hex. congruence.
Qed.

Lemma NoDup_map_filter {A B : Type} (f : A -> B) (g : A -> bool) (l : list A) :
  NoDup (map f l) -> NoDup (map f (filter g l)).
Proof.
  induction l as [|a l IH]; simpl; intros H; [constructor|].
  inversion H as [|? ? Hn Hd]; subst.
  destruct (g a); simpl; [|apply IH, Hd].
  constructor; [|apply IH, Hd].
  intros C. apply Hn. apply in_map_iff in C as (x & E & Hx).
  apply in_map_iff. exists x. split; [exact E|].
  apply filter_In in Hx. tauto.
Qed.

(** X9.  When no two milestones of the state have the same type and
    value, the same holds after an evaluation, whatever the store accepts:
    an evaluation never records a milestone twice. *)
Theorem checkMilestones_keeps_keys_unique store now profile count st :
  NoDup (map key (milestones st)) ->
  NoDup (map key (milestones (after (checkMilestones store now profile count st)))).
Proof.
  intros Hold. rewrite checkMilestones_milestones, map_app, map_rev.
  apply NoDup_app.
  - apply NoDup_rev. apply NoDup_map_filter, requests_keys_NoDup.
  - exact Hold.
  - intros k Hk Hk'. apply in_rev in Hk.
    apply in_map_iff in Hk as (m & <- & Hm). apply filter_In in Hm as [Hm _].
    exact (request_not_recorded _ _ _ _ _ _ Hm Hk').
Qed.

(** Day 135 with start date day 100 and 40 check-ins, from the state that
    holds the 7-days-clean milestone. *)
Lemma checkMilestones_keeps_keys_unique_witness :
  let run := checkMilestones accept_all (Date_parse 135)
               (Some {| recovery_start_date := Some 100 |}) (Some 40) in
  NoDup (map key (milestones with_seven_days))
  /\ List.length (milestones (after (run with_seven_days))) = 5%nat
  /\ NoDup (map key (milestones (after (run with_seven_days)))).
Proof.
  cbv zeta.
  assert (H : NoDup (map key (milestones with_seven_days)))
    by (repeat constructor; simpl; tauto).
  split; [exact H|]. split; [reflexivity|].
  exact (checkMilestones_keeps_keys_unique accept_all (Date_parse 135)
           (Some {| recovery_start_date := Some 100 |}) (Some 40)
           with_seven_days H).
Defined.

End MilestoneState.

(** ** The trigger counts *)

Section TriggerCounts.

Import JS Triggers.

Lemma calculateTriggerStats_fold (data : list CheckIn) :
  calculateTriggerStats data = fold_left tally (all_tags data) [].
Proof.
  unfold calculateTriggerStats, all_tags.
  generalize (@nil (string * Z)) as s.
  induction data as [|c data IH]; intros s; simpl; [reflexivity|].
  rewrite fold_left_app. apply IH.
Qed.

Lemma lookup_assign_same k v s : lookup k (assign k v s) = Some v.
Proof.
  induction s as [|[k' v'] s IH]; simpl.
  - rewrite String.eqb_refl. reflexivity.
  - destruct (String.eqb k' k) eqn:E; simpl; rewrite E; auto.
Qed.

Lemma lookup_assign_other k k' v s :
  k' <> k -> lookup k' (assign k v s) = lookup k' s.
Proof.
  intros Hne. induction s as [|[k0 v0] s IH]; simpl.
  - destruct (String.eqb_spec k k'); [congruence|reflexivity].
  - destruct (String.eqb_spec k0 k) as [->|E]; simpl.
    + destruct (String.eqb_spec k k'); [congruence|reflexivity].
    + rewrite IH. reflexivity.
Qed.

Lemma lookup_tally_all (l : list string) (t : string) :
  forall s,
  lookup t (fold_left tally l s)
  = match count_occ string_dec l t with
    | O => lookup t s
    | S n => Some (or0 (lookup t s) + Z.of_nat (S n))
    end.
Proof.
  induction l as [|x l IH]; intros s; [reflexivity|].
  cbn [fold_left count_occ]. rewrite IH.
  destruct (string_dec x t) as [->|Hne].
  - unfold tally at 1 2. rewrite lookup_assign_same. cbn [or0].
    destruct (count_occ string_dec l t); f_equal; lia.
  - unfold tally at 1 2. rewrite lookup_assign_other by congruence.
    reflexivity.
Qed.

(** X10.  For check-ins whose tags are options of the form and for every
    tag: the object [calculateTriggerStats] stores has no entry for a tag
    that occurs in no check-in, and otherwise holds the number of its
    occurrences over all check-ins. *)
Theorem calculateTriggerStats_counts (data : list CheckIn) (t : string) :
  known_tags data = true ->
  lookup t (calculateTriggerStats data)
  = match count_occ string_dec (all_tags data) t with
    | O => None
    | S n => Some (Z.of_nat (S n))
    end.
Proof.
  intros _. rewrite calculateTriggerStats_fold, lookup_tally_all. reflexivity.
Qed.

(** In the three tagged check-ins Stress occurs three times. *)
Lemma calculateTriggerStats_counts_witness :
  known_tags tagged_days = true
  /\ lookup "Stress"%string (calculateTriggerStats tagged_days)
     = match count_occ string_dec (all_tags tagged_days) "Stress"%string with
       | O => None
       | S n => Some (Z.of_nat (S n))
       end.
Proof.
  split; [reflexivity|].
  exact (calculateTriggerStats_counts tagged_days "Stress"%string eq_refl).
Defined.

Lemma count_of_calculateTriggerStats (data : list CheckIn) (t : string) :
  count_of (calculateTriggerStats data) t
  = Z.of_nat (count_occ string_dec (all_tags data) t).
Proof.
  unfold count_of. rewrite calculateTriggerStats_fold, lookup_tally_all.
  destruct (count_occ string_dec (all_tags data) t); cbn [lookup or0];
    [reflexivity|lia].
Qed.

Lemma keys_assign k v s :
  keys (assign k v s)
  = if existsb (String.eqb k) (keys s) then keys s else keys s ++ [k].
Proof.
  unfold keys. induction s as [|[k' v'] s IH]; simpl; [reflexivity|].
  rewrite (String.eqb_sym k k').
  destruct (String.eqb k' k) eqn:E; simpl; [reflexivity|].
  rewrite IH. destruct (existsb _ _); reflexivity.
Qed.

Lemma absent_snoc (ks : list string) (x y : string) :
  absent (ks ++ [x]) y = absent ks y && negb (String.eqb y x).
Proof.
  unfold absent. rewrite existsb_app. simpl. rewrite orb_false_r.
  apply negb_orb.
Qed.

Lemma keys_tally_all (l : list string) :
  forall s,
  keys (fold_left tally l s)
  = keys s ++ filter (absent (keys s)) (first_occurrences l).
Proof.
  induction l as [|x l IH]; intros s.
  - simpl. symmetry. apply app_nil_r.
  - cbn [fold_left first_occurrences]. rewrite IH.
    set (F := first_occurrences l).
    assert (Hk : keys (tally s x)
                 = if existsb (String.eqb x) (keys s)
                   then keys s else keys s ++ [x])
      by apply keys_assign.
    rewrite Hk. cbn [filter]. unfold absent at 2.
    destruct (existsb (String.eqb x) (keys s)) eqn:E; cbn [negb].
    + f_equal. rewrite filter_filter. apply filter_ext. intros y.
      destruct (String.eqb_spec y x) as [->|Hne]; simpl; [|reflexivity].
      unfold absent. rewrite E. reflexivity.
    + rewrite <- app_assoc. f_equal. cbn [app]. f_equal.
      rewrite filter_filter. apply filter_ext. intros y.
      rewrite absent_snoc. apply andb_comm.
Qed.

Lemma filter_all {A} (f : A -> bool) (l : list A) :
  (forall a, In a l -> f a = true) -> filter f l = l.
Proof.
  induction l as [|a l IH]; simpl; intros H; [reflexivity|].
  rewrite (H a (or_introl eq_refl)), IH; auto.
Qed.

Lemma keys_in_first_occurrence_order (data : list CheckIn) :
  keys (calculateTriggerStats data) = first_occurrences (all_tags data).
Proof.
  rewrite calculateTriggerStats_fold, keys_tally_all. simpl.
  apply filter_all. reflexivity.
Qed.

Lemma first_occurrences_In (l : list string) (t : string) :
  In t (first_occurrences l) <-> In t l.
Proof.
  induction l as [|x l IH]; simpl; [tauto|].
  rewrite filter_In, IH, negb_true_iff, String.eqb_neq.
  destruct (string_dec x t); [tauto|]. split; [tauto|].
  intros [H|H]; [tauto|]. right. split; [exact H|congruence].
Qed.

Lemma first_occurrences_NoDup (l : list string) : NoDup (first_occurrences l).
Proof.
  induction l as [|x l IH]; simpl; constructor.
  - rewrite filter_In, String.eqb_refl. simpl. intros [_ H]. discriminate.
  - apply NoDup_filter, IH.
Qed.

Lemma sum_values_acc (l : list Z) (acc : Z) :
  fold_left (fun sum count => sum + count) l acc
  = acc + fold_left (fun sum count => sum + count) l 0.
Proof.
  revert acc. induction l as [|x l IH]; intros acc; simpl; [lia|].
  rewrite (IH (acc + x)), (IH x). lia.
Qed.

Lemma totalTriggers_assign k s :
  totalTriggers (tally s k) = totalTriggers s + 1.
Proof.
  unfold tally, totalTriggers, values.
  induction s as [|[k' v'] s IH]; simpl; [reflexivity|].
  destruct (String.eqb k' k) eqn:E; simpl.
  - rewrite (sum_values_acc _ (v' + 1)), (sum_values_acc _ v'). lia.
  - rewrite (sum_values_acc _ v'), IH, (sum_values_acc (map snd s) v'). lia.
Qed.

Lemma totalTriggers_all (l : list string) :
  forall s, totalTriggers (fold_left tally l s)
            = totalTriggers s + Z.of_nat (List.length l).
Proof.
  induction l as [|x l IH]; intros s; [simpl; lia|].
  cbn [fold_left List.length]. rewrite IH, totalTriggers_assign. lia.
Qed.

(** X11.  For check-ins whose tags are options of the form: the keys of
    the object are the distinct tags in the order of their first
    occurrence, each once, and the Total Triggers card, the sum of the
    counts, is the number of tags over all check-ins. *)
Theorem calculateTriggerStats_keys_and_total (data : list CheckIn) :
  known_tags data = true ->
  keys (calculateTriggerStats data) = first_occurrences (all_tags data)
  /\ NoDup (keys (calculateTriggerStats data))
  /\ totalTriggers (calculateTriggerStats data)
     = Z.of_nat (List.length (all_tags data)).
Proof.
  intros _. split; [apply keys_in_first_occurrence_order|]. split.
  - rewrite keys_in_first_occurrence_order. apply first_occurrences_NoDup.
  - rewrite calculateTriggerStats_fold, totalTriggers_all. reflexivity.
Qed.

(** The three tagged check-ins: keys Stress, Anger, Boredom and five tags
    in all. *)
Lemma calculateTriggerStats_keys_and_total_witness :
  known_tags tagged_days = true
  /\ keys (calculateTriggerStats tagged_days)
     = ["Stress"; "Anger"; "Boredom"]%string
  /\ totalTriggers (calculateTriggerStats tagged_days) = 5.
Proof.
  split; [reflexivity|].
  destruct (calculateTriggerStats_keys_and_total tagged_days eq_refl)
    as (H1 & _ & H3).
  split; [exact H1|exact H3].
Defined.

Lemma values_by_keys (s : Counts) :
  NoDup (keys s) -> values s = map (count_of s) (keys s).
Proof.
  induction s as [|[k v] s IH]; intros H; [reflexivity|].
  change (keys ((k, v) :: s)) with (k :: keys s) in *.
  change (values ((k, v) :: s)) with (v :: values s).
  inversion H as [|? ? Hn Hd]; subst. cbn [map]. f_equal.
  - unfold count_of. simpl. rewrite String.eqb_refl. reflexivity.
  - rewrite (IH Hd). apply map_ext_in. intros k' Hk'.
    unfold count_of. simpl.
    destruct (String.eqb_spec k k') as [->|]; [contradiction|reflexivity].
Qed.

(** X12.  For check-ins whose tags are options of the form: the Common
    Triggers chart shows the first eight distinct tags in the order of
    their first occurrence (not the eight most frequent), each bar being
    the number of occurrences of its tag. *)
Theorem triggerChart_first_seen (data : list CheckIn) :
  known_tags data = true ->
  chartLabels (calculateTriggerStats data)
  = firstn 8 (first_occurrences (all_tags data))
  /\ chartData (calculateTriggerStats data)
     = map (fun t => Z.of_nat (count_occ string_dec (all_tags data) t))
           (chartLabels (calculateTriggerStats data)).
Proof.
  intros _. unfold chartLabels, chartData. split.
  - rewrite keys_in_first_occurrence_order. reflexivity.
  - rewrite values_by_keys.
    + rewrite firstn_map. apply map_ext. intros t.
      apply count_of_calculateTriggerStats.
    + rewrite keys_in_first_occurrence_order. apply first_occurrences_NoDup.
Qed.

(** The three tagged check-ins: Stress 3, Anger 1, Boredom 1. *)
Lemma triggerChart_first_seen_witness :
  known_tags tagged_days = true
  /\ chartLabels (calculateTriggerStats tagged_days)
     = ["Stress"; "Anger"; "Boredom"]%string
  /\ chartData (calculateTriggerStats tagged_days) = [3; 1; 1].
Proof.
  split; [reflexivity|].
  destruct (triggerChart_first_seen tagged_days eq_refl) as [H1 H2].
  split; [exact H1|]. rewrite H2, H1. reflexivity.
Defined.

End TriggerCounts.

(** ** The Trigger Summary *)

Section TriggerSummary.

Import JS Triggers.

Lemma sorted_firstn_skipn {A : Type} (R : A -> A -> Prop) (n : nat)
    (l : list A) :
  StronglySorted R l ->
  StronglySorted R (firstn n l)
  /\ forall a b, In a (firstn n l) -> In b (skipn n l) -> R a b.
Proof.
  intros H. revert n. induction H as [|x l Hs IH Hx]; intros n.
  - rewrite firstn_nil, skipn_nil. split; [constructor|intros ? ? []].
  - destruct n as [|n]; simpl.
    + split; [constructor|intros ? ? []].
    + destruct (IH n) as [I1 I2]. split.
      * constructor; [exact I1|].
        rewrite Forall_forall in *. intros y Hy. apply Hx.
        rewrite <- (firstn_skipn n l). apply in_or_app. left. exact Hy.
      * intros a b [<-|Ha] Hb.
        -- rewrite Forall_forall in Hx. apply Hx.
           rewrite <- (firstn_skipn n l). apply in_or_app. right. exact Hb.
        -- apply I2; assumption.
Qed.

Lemma insert_by_count_perm e l : Permutation (insert_by_count e l) (e :: l).
Proof.
  induction l as [|x l IH]; simpl; [reflexivity|].
  destruct (snd x <=? snd e); [reflexivity|].
  rewrite IH. apply perm_swap.
Qed.

Lemma sort_by_count_perm stats : Permutation (sort_by_count stats) stats.
Proof.
  induction stats as [|e l IH]; simpl; [constructor|].
  rewrite insert_by_count_perm. constructor. exact IH.
Qed.

Lemma insert_by_count_sorted e l :
  StronglySorted at_least l -> StronglySorted at_least (insert_by_count e l).
Proof.
  induction 1 as [|x l Hs IH Hx]; simpl; [repeat constructor|].
  destruct (Z.leb_spec (snd x) (snd e)) as [Hle|Hgt].
  - constructor; [constructor; assumption|].
    constructor; [exact Hle|].
    rewrite Forall_forall in *. intros y Hy. specialize (Hx y Hy).
    unfold at_least in *. lia.
  - constructor; [exact IH|].
    rewrite Forall_forall in *. intros y Hy.
    apply (Permutation_in _ (insert_by_count_perm e l)) in Hy.
    destruct Hy as [<-|Hy]; [unfold at_least; lia|auto].
Qed.

Lemma sort_by_count_sorted stats : StronglySorted at_least (sort_by_count stats).
Proof.
  induction stats as [|e l IH]; simpl; [constructor|].
  apply insert_by_count_sorted, IH.
Qed.

(** X13.  For every object of counts, the Trigger Summary lists entries of
    the object by decreasing count, eight of them or all when there are
    fewer; the listed entries together with the entries left out are the
    entries of the object, and every listed count is at least every count
    left out. *)
Theorem triggerSummary_top (stats : Counts) :
  StronglySorted at_least (triggerSummary stats)
  /\ List.length (triggerSummary stats) = Nat.min 8 (List.length stats)
  /\ exists rest,
       Permutation stats (triggerSummary stats ++ rest)
       /\ Forall (fun e => Forall (at_least e) rest) (triggerSummary stats).
Proof.
  unfold triggerSummary.
  destruct (sorted_firstn_skipn at_least 8 _ (sort_by_count_sorted stats))
    as [H1 H2].
  split; [exact H1|]. split.
  - rewrite length_firstn, (Permutation_length (sort_by_count_perm stats)).
    reflexivity.
  - exists (skipn 8 (sort_by_count stats)). split.
    + rewrite firstn_skipn. symmetry. apply sort_by_count_perm.
    + apply Forall_forall. intros e He. apply Forall_forall. intros e' He'.
      apply H2; assumption.
Qed.

End TriggerSummary.

(** ** The insights *)

Section Insights.

Import JS Triggers Rules.

Lemma lookup_In_keys k stats v : lookup k stats = Some v -> In k (keys stats).
Proof.
  induction stats as [|[k' v'] s IH]; simpl; [discriminate|].
  destruct (String.eqb_spec k' k); [auto|auto].
Qed.

Lemma keys_lookup k stats :
  In k (keys stats) -> exists v, lookup k stats = Some v.
Proof.
  induction stats as [|[k' v'] s IH]; simpl; [intros []|].
  destruct (String.eqb_spec k' k) as [|Hne]; [eauto|].
  intros [H|H]; [contradiction|auto].
Qed.

Lemma top_fold (stats : Counts) (ks : list string) :
  forall a,
  (forall k, In k (a :: ks) -> exists v, lookup k stats = Some v) ->
  let r := fold_left (fun a b => if more stats a b then a else b) ks a in
  In r (a :: ks)
  /\ forall k, In k (a :: ks) -> count_of stats k <= count_of stats r.
Proof.
  induction ks as [|b ks IH]; intros a Hall; cbn [fold_left].
  - split; [left; reflexivity|]. intros k [<-|[]]. lia.
  - set (a' := if more stats a b then a else b).
    assert (Ha' : (a' = a \/ a' = b)
                  /\ count_of stats a <= count_of stats a'
                  /\ count_of stats b <= count_of stats a').
    { unfold a', more, count_of.
      destruct (Hall a (or_introl eq_refl)) as (x & Hx).
      destruct (Hall b (or_intror (or_introl eq_refl))) as (y & Hy).
      rewrite Hx, Hy.
      destruct (Z.ltb_spec y x); rewrite ?Hx, ?Hy; simpl;
        (split; [auto|lia]). }
    destruct Ha' as (Hor & H1 & H2).
    destruct (IH a') as [I1 I2].
    { intros k [<-|Hk]; [destruct Hor as [->| ->]|]; apply Hall; simpl; auto. }
    split.
    + destruct I1 as [E|I1]; [|right; right; exact I1].
      rewrite <- E. destruct Hor as [->| ->]; simpl; auto.
    + intros k [<-|[<-|Hk]].
      * specialize (I2 a' (or_introl eq_refl)). lia.
      * specialize (I2 a' (or_introl eq_refl)). lia.
      * apply I2. right. exact Hk.
Qed.

Lemma topTrigger_is_most_frequent (stats : Counts) (t : string) :
  topTrigger stats = Some t ->
  exists n, lookup t stats = Some n
            /\ forall t' n', lookup t' stats = Some n' -> n' <= n.
Proof.
  unfold topTrigger. destruct (keys stats) as [|k0 ks] eqn:E; [discriminate|].
  intros H. injection H as <-.
  destruct (top_fold stats (k0 :: ks) k0) as [I1 I2].
  { intros k Hk. apply keys_lookup. rewrite E.
    destruct Hk as [<-|Hk]; [left; reflexivity|exact Hk]. }
  cbv zeta in I1, I2.
  set (r := fold_left _ (k0 :: ks) k0) in *.
  destruct (keys_lookup r stats) as (n & Hn).
  { rewrite E. destruct I1 as [<-|I1]; [left; reflexivity|exact I1]. }
  exists n. split; [exact Hn|]. intros t' n' Ht'.
  assert (Hin : In t' (k0 :: k0 :: ks)).
  { right. rewrite <- E. eapply lookup_In_keys, Ht'. }
  specialize (I2 t' Hin). unfold count_of in I2. rewrite Ht', Hn in I2.
  exact I2.
Qed.

(** Whatever the object of counts, an insight about the most common
    trigger names a key of the largest count, which is above 2. *)
Lemma getInsights_names_most_frequent (checkIns : list CheckIn)
    (stats : Counts) :
  Forall (names_most_frequent stats) (getInsights checkIns stats).
Proof.
  unfold getInsights. destruct checkIns as [|c rest]; [constructor|].
  cbv zeta. apply Forall_app. split; [|apply Forall_app; split].
  - destruct (geb _ _); [constructor; [exact I|constructor]|].
    destruct (ltb _ _); constructor; [exact I|constructor].
  - destruct (topTrigger stats) as [t|] eqn:Et; [|constructor].
    destruct (topTrigger_is_most_frequent stats t Et) as (n & Hn & Hmax).
    rewrite Hn. destruct (negb (String.eqb t EmptyString)); simpl; [|constructor].
    destruct (Z.ltb_spec 2 n); constructor; [|constructor].
    split; [reflexivity|]. exists n. auto.
  - destruct (geb _ _); [constructor; [exact I|constructor]|].
    destruct (ltb _ _); constructor; [exact I|constructor].
Qed.

Lemma names_top_tag_of_counts (data : list CheckIn) (i : Insight) :
  names_most_frequent (calculateTriggerStats data) i -> names_top_tag data i.
Proof.
  unfold names_most_frequent, names_top_tag.
  destruct (insight_text i) as [| |t| |]; auto.
  intros (_ & n & Hn & H2 & Hmax).
  pose proof (count_of_calculateTriggerStats data t) as Ct.
  unfold count_of in Ct. rewrite Hn in Ct. cbn [or0] in Ct.
  split; [lia|]. intros t'.
  pose proof (count_of_calculateTriggerStats data t') as Ct'.
  unfold count_of in Ct'.
  destruct (lookup t' (calculateTriggerStats data)) as [n'|] eqn:E.
  - specialize (Hmax t' n' E). cbn [or0] in Ct'. lia.
  - cbn [or0] in Ct'. lia.
Qed.

Lemma option_is_not_empty (t : string) :
  existsb (String.eqb t) DailyCheckIn.TRIGGER_OPTIONS = true ->
  String.eqb t EmptyString = false.
Proof.
  intros H. destruct (String.eqb_spec t EmptyString) as [->|]; [|reflexivity].
  vm_compute in H. discriminate.
Qed.

(** X14.  For check-ins whose tags are options of the form, with the
    counts computed from the same check-ins: an insight about the most
    common trigger names a tag that occurs at least three times and that
    no tag exceeds; and such an insight is shown exactly when some tag
    occurs at least three times. *)
Theorem insights_top_trigger (data : list CheckIn) :
  known_tags data = true ->
  Forall (names_top_tag data) (insights data)
  /\ ((exists t, (3 <= count_occ string_dec (all_tags data) t)%nat)
      <-> exists t, In {| insight_type := type_insight;
                          insight_text := MostCommonTrigger t |}
                       (insights data)).
Proof.
  intros Hk.
  assert (HF : Forall (names_top_tag data) (insights data)).
  { unfold insights.
    eapply Forall_impl; [|apply getInsights_names_most_frequent].
    intros i. apply names_top_tag_of_counts. }
  split; [exact HF|]. split.
  - intros (t & Ht).
    destruct data as [|c rest]; [simpl in Ht; lia|].
    unfold insights. set (data := c :: rest) in *.
    set (stats := calculateTriggerStats data) in *.
    pose proof (count_of_calculateTriggerStats data t) as Ct.
    fold stats in Ct. unfold count_of in Ct.
    destruct (lookup t stats) as [m|] eqn:Em; [|cbn [or0] in Ct; lia].
    cbn [or0] in Ct.
    assert (Hkeys : In t (keys stats)) by (eapply lookup_In_keys, Em).
    destruct (topTrigger stats) as [t0|] eqn:Et.
    2:{ unfold topTrigger in Et. destruct (keys stats); [destruct Hkeys|].
        discriminate. }
    destruct (topTrigger_is_most_frequent stats t0 Et) as (n & Hn & Hmax).
    pose proof (Hmax t m Em) as Hle.
    assert (Hopt : String.eqb t0 EmptyString = false).
    { apply option_is_not_empty.
      assert (Hin : In t0 (all_tags data)).
      { apply first_occurrences_In.
        rewrite <- keys_in_first_occurrence_order.
        eapply lookup_In_keys, Hn. }
      unfold known_tags in Hk. rewrite forallb_forall in Hk.
      exact (Hk t0 Hin). }
    exists t0. unfold data at 1. unfold getInsights. cbv zeta.
    apply in_or_app. right. apply in_or_app. left.
    rewrite Et, Hn, Hopt.
    replace (2 <? n) with true by (symmetry; apply Z.ltb_lt; lia).
    left. reflexivity.
  - intros (t & Hin). rewrite Forall_forall in HF.
    specialize (HF _ Hin). exists t. exact (proj1 HF).
Qed.

(** The three tagged check-ins, where Stress occurs three times. *)
Lemma insights_top_trigger_witness :
  known_tags tagged_days = true
  /\ In {| insight_type := type_insight;
           insight_text := MostCommonTrigger "Stress"%string |}
        (insights tagged_days)
  /\ Forall (names_top_tag tagged_days) (insights tagged_days).
Proof.
  split; [reflexivity|]. split; [vm_compute; tauto|].
  exact (proj1 (insights_top_trigger tagged_days eq_refl)).
Defined.

Lemma quotient_ge (k s n : Z) :
  0 < n ->
  geb (Fin (inject_Z s / inject_Z n)) (of_Z k) = (k * n <=? s).
Proof.
  intros Hn. unfold geb, ltb, of_Z. rewrite negb_involutive.
  assert (Hq : (0 < inject_Z n)%Q)
    by (change (inject_Z 0 < inject_Z n)%Q; rewrite <- Zlt_Qlt; exact Hn).
  destruct (Z.leb_spec (k * n) s) as [H|H].
  - apply Qle_bool_iff. apply Qle_shift_div_l; [exact Hq|].
    rewrite <- inject_Z_mult, <- Zle_Qle. exact H.
  - apply not_true_is_false. intros C. apply Qle_bool_iff in C.
    assert (Hlt : (inject_Z s / inject_Z n < inject_Z k)%Q).
    { apply Qlt_shift_div_r; [exact Hq|].
      rewrite <- inject_Z_mult, <- Zlt_Qlt. exact H. }
    apply (Qlt_irrefl (inject_Z k)). eapply Qle_lt_trans; eassumption.
Qed.

Lemma quotient_lt (k s n : Z) :
  0 < n ->
  ltb (Fin (inject_Z s / inject_Z n)) (of_Z k) = (s <? k * n).
Proof.
  intros Hn. pose proof (quotient_ge k s n Hn) as G.
  unfold geb, of_Z in G. unfold of_Z.
  destruct (ltb _ _); simpl in G.
  - symmetry. apply Z.ltb_lt. symmetry in G. apply Z.leb_gt in G. exact G.
  - symmetry. apply Z.ltb_ge. symmetry in G. apply Z.leb_le in G. exact G.
Qed.

Lemma quotient_lt_half (s n : Z) :
  0 < n ->
  ltb (Fin (inject_Z s / inject_Z n)) (Fin (5 # 2)) = (2 * s <? 5 * n).
Proof.
  intros Hn. destruct n as [|p|p]; try lia.
  unfold ltb, Qle_bool, Qdiv, Qmult, Qinv, inject_Z. cbn [Qnum Qden].
  destruct (Z.ltb_spec (2 * s) (5 * Z.pos p)) as [H|H].
  - apply negb_true_iff, Z.leb_gt. cbn -[Z.mul]. lia.
  - apply negb_false_iff, Z.leb_le. cbn -[Z.mul]. lia.
Qed.

Lemma avg_of_slice (field : CheckIn -> option Z) (n : nat) (c : CheckIn)
    (rest : list CheckIn) :
  let recent := ProgressCharts.slice_last (S n) (c :: rest) in
  div (of_Z (fold_left Z.add (map (fun c => or0 (field c)) recent) 0))
      (of_Z (Z.of_nat (List.length (map (fun c => or0 (field c)) recent))))
  = Fin (inject_Z (total_of field recent)
         / inject_Z (Z.of_nat (List.length recent)))
  /\ 0 < Z.of_nat (List.length recent).
Proof.
  cbv zeta. destruct (slice_last_nonempty n c rest) as (b & r & E).
  rewrite E, fold_add_total_of, length_map. cbn [List.length].
  rewrite div_by_length. split; [reflexivity|lia].
Qed.

(** X15.  For a non-empty list of check-ins and any counts, the insights
    are, in this order: one about the mood, decided by the sum of the
    mood scores of the last seven check-ins (good when the sum is at
    least 7 times their number, attention when it is below 5 times their
    number, none in between); at most one about the most common trigger;
    one about the energy, decided by the sum of the energy levels of the
    last five check-ins (great from 4 times their number, low below 2.5
    times their number, none in between). *)
Theorem getInsights_thresholds (c : CheckIn) (rest : list CheckIn)
    (stats : Counts) :
  let data := c :: rest in
  let last7 := ProgressCharts.slice_last 7 data in
  let last5 := ProgressCharts.slice_last 5 data in
  let moods := total_of mood_score last7 in
  let energies := total_of energy_level last5 in
  let n7 := Z.of_nat (List.length last7) in
  let n5 := Z.of_nat (List.length last5) in
  exists about_trigger : list Insight,
    getInsights data stats
    = (if 7 * n7 <=? moods then
         [{| insight_type := type_positive;
             insight_text := MoodConsistentlyGood |}]
       else if moods <? 5 * n7 then
         [{| insight_type := type_attention;
             insight_text := ConsiderReachingOut |}]
       else [])
      ++ about_trigger
      ++ (if 4 * n5 <=? energies then
            [{| insight_type := type_positive; insight_text := EnergyGreat |}]
          else if 2 * energies <? 5 * n5 then
            [{| insight_type := type_attention;
                insight_text := LowEnergyDetected |}]
          else [])
    /\ (List.length about_trigger <= 1)%nat
    /\ (0 < n7 <= 7 /\ 0 < n5 <= 5).
Proof.
  cbv zeta. unfold getInsights. cbv zeta.
  unfold ProgressCharts.avgRecentMood, ProgressCharts.recentMoods,
    ProgressCharts.avgEnergy, ProgressCharts.energyTrend.
  destruct (avg_of_slice mood_score 6 c rest) as [Em Hm].
  destruct (avg_of_slice energy_level 4 c rest) as [Ee He].
  cbv zeta in Em, Ee, Hm, He. rewrite Em, Ee.
  rewrite !quotient_ge, !quotient_lt by assumption.
  rewrite quotient_lt_half by assumption.
  eexists. split; [reflexivity|]. split.
  - destruct (topTrigger stats); [|simpl; lia].
    destruct (_ && _); simpl; lia.
  - unfold ProgressCharts.slice_last in *. rewrite !length_skipn in *.
    cbn [List.length] in *. lia.
Qed.

End Insights.

(** ** The rows the pages fetch *)

Section Ordering.

Import JS Dashboard ProgressCharts DashboardView.

Lemma insert_by_date_perm asc c l :
  Permutation (insert_by_date asc c l) (c :: l).
Proof.
  induction l as [|x l IH]; simpl; [reflexivity|].
  destruct (if asc then _ else _); [reflexivity|].
  rewrite IH. apply perm_swap.
Qed.

Lemma order_by_date_perm asc table :
  Permutation (order_by_date asc table) table.
Proof.
  induction table as [|c l IH]; simpl; [constructor|].
  rewrite insert_by_date_perm. constructor. exact IH.
Qed.

Lemma insert_by_date_sorted asc c l :
  StronglySorted (date_order asc) l ->
  StronglySorted (date_order asc) (insert_by_date asc c l).
Proof.
  induction 1 as [|x l Hs IH Hx]; simpl; [repeat constructor|].
  destruct (if asc then date c <=? date x else date x <=? date c) eqn:E.
  - constructor; [constructor; assumption|].
    assert (Hcx : date_order asc c x).
    { unfold date_order. destruct asc; apply Z.leb_le, E. }
    constructor; [exact Hcx|].
    rewrite Forall_forall in *. intros y Hy. specialize (Hx y Hy).
    unfold date_order in *. destruct asc; lia.
  - constructor; [exact IH|].
    rewrite Forall_forall in *. intros y Hy.
    apply (Permutation_in _ (insert_by_date_perm asc c l)) in Hy.
    destruct Hy as [<-|Hy]; [|auto].
    unfold date_order. destruct asc; apply Z.leb_gt in E; lia.
Qed.

Lemma order_by_date_sorted asc table :
  StronglySorted (date_order asc) (order_by_date asc table).
Proof.
  induction table as [|c l IH]; simpl; [constructor|].
  apply insert_by_date_sorted, IH.
Qed.

(** X16.  For every table of check-ins, the dashboard holds the most
    recent ones: its list is ordered by date, latest first, has seven rows
    or all when there are fewer, and together with the rows left out it
    makes up the table, no row left out being dated after a row of the
    list. *)
Theorem fetchCheckIns_most_recent (table : list CheckIn) :
  StronglySorted (date_order false) (fetchCheckIns table)
  /\ List.length (fetchCheckIns table) = Nat.min 7 (List.length table)
  /\ exists older,
       Permutation table (fetchCheckIns table ++ older)
       /\ Forall (fun c => Forall (fun o => date o <= date c) older)
                 (fetchCheckIns table).
Proof.
  unfold fetchCheckIns.
  destruct (sorted_firstn_skipn (date_order false) 7 _
              (order_by_date_sorted false table)) as [H1 H2].
  split; [exact H1|]. split.
  - rewrite length_firstn, (Permutation_length (order_by_date_perm false table)).
    reflexivity.
  - exists (skipn 7 (order_by_date false table)). split.
    + rewrite firstn_skipn. symmetry. apply order_by_date_perm.
    + apply Forall_forall. intros a Ha. apply Forall_forall. intros b Hb.
      exact (H2 a b Ha Hb).
Qed.

Lemma setDate_minus_fixed_zone (tz t n : Z) :
  setDate_minus_in (fixed_zone tz) t n = setDate_minus t n.
Proof.
  unfold setDate_minus_in, UTC, LocalTime, fixed_zone, setDate_minus.
  simpl. lia.
Qed.

(** In any zone, the step back is the fixed step from [t] moved by the
    difference of the two offsets. *)
Lemma setDate_minus_in_shift (zone : Zone) (t n : Z) :
  setDate_minus_in zone t n
  = setDate_minus
      (t + (LocalTZA zone t true
            - LocalTZA zone (LocalTime zone t - n * MS_PER_DAY) false)) n.
Proof. unfold setDate_minus_in, UTC, LocalTime, setDate_minus. lia. Qed.

(** X17.  For every zone, table, time and range of n days, the rows of
    the progress page are ordered by date, earliest first, and are
    exactly the rows of the table dated on or after a first day, each as
    often as in the table; there is no last day.  The first day is the
    UTC day of (now + shift) minus n, where shift is the offset of the
    zone now minus its offset at the local time n days earlier: 0 when no
    daylight-saving switch lies between, as in every zone of fixed
    offset, where the rows are those of [ProgressCharts.fetchData]. *)
Theorem fetchData_window_in_order (zone : Zone) (now : Z) (tr : TimeRange)
    (table : list CheckIn) :
  let shift :=
    LocalTZA zone now true
    - LocalTZA zone (LocalTime zone now - parseInt tr * MS_PER_DAY) false in
  StronglySorted (date_order true) (Zoned.fetchData zone now tr table)
  /\ Permutation (Zoned.fetchData zone now tr table)
       (filter (fun c => toISODate (now + shift) - parseInt tr <=? date c)
               table)
  /\ (forall tz, Zoned.fetchData (fixed_zone tz) now tr table
                 = fetchData now tr table).
Proof.
  cbv zeta. unfold Zoned.fetchData, fetchData, gte_date. cbv zeta.
  split; [apply order_by_date_sorted|]. split.
  - rewrite setDate_minus_in_shift, toISODate_setDate_minus.
    apply order_by_date_perm.
  - intros tz. rewrite setDate_minus_fixed_zone. reflexivity.
Qed.

(** New York, 15 March 2024 at 23:30 UTC (19:30 local, daylight time),
    range 7: seven local days earlier standard time was in force, the
    step back is 7 days less one hour and ends on 9 March UTC (day
    19791).  The check-in of 8 March (day 19790) is left out, while the
    fixed step of 7 times 24 hours would keep it. *)
Example fetchData_after_dst_switch :
  let now := Date_parse 19797 + (23 * 60 + 30) * 60 * 1000 in
  let table := [checkin_on 19790; checkin_on 19791] in
  toISODate (setDate_minus_in new_york_march_2024 now 7) = 19791
  /\ Zoned.fetchData new_york_march_2024 now Range7 table
     = [checkin_on 19791]
  /\ fetchData now Range7 table = table.
Proof. cbv zeta. repeat split; vm_compute; reflexivity. Qed.

(** At noon UTC a shift of less than twelve hours does not change the
    day: in every zone the rows are those of the fixed step. *)
Lemma fetchData_at_noon (zone : Zone) (d : Z) (tr : TimeRange)
    (table : list CheckIn) :
  let now := Date_parse d + 12 * 60 * 60 * 1000 in
  let shift :=
    LocalTZA zone now true
    - LocalTZA zone (LocalTime zone now - parseInt tr * MS_PER_DAY) false in
  - (12 * 60 * 60 * 1000) <= shift < 12 * 60 * 60 * 1000 ->
  Zoned.fetchData zone now tr table = fetchData now tr table.
Proof.
  cbv zeta. intros Hs. unfold Zoned.fetchData, fetchData. cbv zeta.
  rewrite setDate_minus_in_shift, !toISODate_setDate_minus.
  f_equal. f_equal. f_equal.
  set (shift := LocalTZA zone _ true - LocalTZA zone _ false) in *.
  clearbody shift. unfold toISODate, Date_parse.
  assert (E : forall x, 0 <= x < MS_PER_DAY ->
                        (d * MS_PER_DAY + x) / MS_PER_DAY = d).
  { intros x Hx. rewrite Z.div_add_l by discriminate.
    rewrite (Z.div_small x) by exact Hx. lia. }
  rewrite (E (12 * 60 * 60 * 1000)) by (unfold MS_PER_DAY; lia).
  replace (d * MS_PER_DAY + 12 * 60 * 60 * 1000 + shift)
    with (d * MS_PER_DAY + (12 * 60 * 60 * 1000 + shift)) by lia.
  apply E. unfold MS_PER_DAY. lia.
Qed.

Lemma sorted_head_max (l : list CheckIn) (c : CheckIn) (rest : list CheckIn) :
  StronglySorted (date_order false) l -> l = c :: rest ->
  forall x, In x l -> date x <= date c.
Proof.
  intros H -> x [<-|Hx]; [lia|].
  inversion H as [|? ? _ Hall]; subst. rewrite Forall_forall in Hall.
  exact (Hall x Hx).
Qed.

(** X18.  For every table and time, the button of the dashboard reads
    "Update Today's Check-In" exactly when the table has a check-in dated
    today (the UTC day) and none dated later; otherwise it reads "Start
    Daily Check-In". *)
Theorem checkInButton_says_update (now : Z) (table : list CheckIn) :
  (checkInButton now (fetchCheckIns table) = "Update Today's Check-In"%string
   <-> (exists c, In c table /\ date c = toISODate now)
       /\ Forall (fun c => date c <= toISODate now) table)
  /\ (checkInButton now (fetchCheckIns table) = "Update Today's Check-In"%string
      \/ checkInButton now (fetchCheckIns table)
         = "Start Daily Check-In"%string).
Proof.
  split; [|unfold checkInButton; destruct (updatesToday _ _); auto].
  unfold checkInButton, updatesToday.
  pose proof (order_by_date_sorted false table) as Hs.
  pose proof (order_by_date_perm false table) as Hp.
  unfold fetchCheckIns.
  destruct (order_by_date false table) as [|c rest] eqn:E.
  - apply Permutation_nil in Hp. subst table. simpl. split; [discriminate|].
    intros [(c & [] & _) _].
  - cbn [firstn].
    assert (Hc : In c table) by (apply (Permutation_in _ Hp); left; reflexivity).
    assert (Hmax : forall x, In x table -> date x <= date c).
    { intros x Hx. apply (sorted_head_max _ c rest Hs eq_refl).
      apply (Permutation_in _ (Permutation_sym Hp)). exact Hx. }
    destruct (Z.eqb_spec (date c) (toISODate now)) as [Eq|Ne].
    + split; [intros _|reflexivity]. split; [eauto|].
      apply Forall_forall. intros x Hx. rewrite <- Eq. auto.
    + split; [discriminate|]. intros [(x & Hx & Ex) Hall]. exfalso.
      rewrite Forall_forall in Hall. specialize (Hall c Hc).
      specialize (Hmax x Hx). lia.
Qed.

End Ordering.

(** ** What the dashboard shows *)

Section DashboardShown.

Import JS Dashboard DashboardView Rules.

Lemma total_of_bounds (rows : list CheckIn) :
  Forall (fun r => 0 <= or0 (mood_score r) <= 10) rows ->
  0 <= total_of mood_score rows <= 10 * Z.of_nat (List.length rows).
Proof.
  induction 1 as [|r rows Hr _ IH]; [simpl; lia|].
  cbn [total_of List.length]. lia.
Qed.

Lemma round_tenths (s n : Z) :
  0 < n ->
  div (Math_round (mul (Fin (inject_Z s / inject_Z n)) (of_Z 10))) (of_Z 10)
  = Fin (inject_Z ((20 * s + n) / (2 * n)) / inject_Z 10).
Proof.
  intros Hn.
  change (Math_round (mul (Fin (inject_Z s / inject_Z n)) (of_Z 10)))
    with (of_Z (Qfloor (inject_Z s / inject_Z n * inject_Z 10 + (1 # 2)))).
  assert (E : Qfloor (inject_Z s / inject_Z n * inject_Z 10 + (1 # 2))
              = (20 * s + n) / (2 * n)).
  { rewrite Zdiv_Qdiv. apply Qfloor_comp.
    rewrite inject_Z_plus, !inject_Z_mult.
    assert (~ (inject_Z n == 0)%Q).
    { intros C. apply (inject_Z_injective n 0) in C. lia. }
    change (inject_Z 20) with (20 # 1)%Q. change (inject_Z 2) with (2 # 1)%Q.
    change (inject_Z 10) with (10 # 1)%Q. field. assumption. }
  rewrite E. reflexivity.
Qed.

Lemma fetchStats_avgMood_rows (moodData : option (list CheckIn)) :
  fetchStats_avgMood moodData = average_rule mood_score (rows_of moodData).
Proof.
  destruct moodData as [rows|]; [apply fetchStats_avgMood_rule|reflexivity].
Qed.

(** X19.  When the mood scores of the rows the mood query returned are
    between 0 and 10 (a missing score counting as 0), the average mood the
    dashboard stores is k / 10 for an integer k between 0 and 100: k is 0
    when the query returned no row or null, and otherwise the integer
    nearest to ten times the average (halves rounded up). *)
Theorem dashboard_avgMood_shown (tz now : Z) (count : option Z)
    (moodData : option (list CheckIn)) (closure_checkIns : list CheckIn) :
  Forall (fun r => 0 <= or0 (mood_score r) <= 10) (rows_of moodData) ->
  exists k : Z,
    avgMood (fetchStats tz now count moodData closure_checkIns)
    = Fin (inject_Z k / inject_Z 10)
    /\ 0 <= k <= 100
    /\ (rows_of moodData = [] /\ k = 0
        \/ rows_of moodData <> []
           /\ 2 * Z.of_nat (List.length (rows_of moodData)) * k
              <= 20 * total_of mood_score (rows_of moodData)
                 + Z.of_nat (List.length (rows_of moodData))
              < 2 * Z.of_nat (List.length (rows_of moodData)) * (k + 1)).
Proof.
  intros Hb. pose proof (total_of_bounds _ Hb) as Hs.
  unfold fetchStats. cbv zeta. cbn [avgMood].
  rewrite fetchStats_avgMood_rows. unfold average_rule.
  set (rows := rows_of moodData) in *.
  destruct rows as [|r rows'] eqn:Er.
  - exists 0. split; [reflexivity|]. split; [lia|]. left. auto.
  - rewrite <- Er in *.
    assert (Hne : rows <> []) by (rewrite Er; discriminate).
    set (s := total_of mood_score rows) in *.
    set (n := Z.of_nat (List.length rows)) in *.
    assert (Hn : 0 < n) by (unfold n; rewrite Er; cbn [List.length]; lia).
    clearbody s n. rewrite (round_tenths s n Hn).
    exists ((20 * s + n) / (2 * n)). split; [reflexivity|].
    pose proof (Z.div_mod (20 * s + n) (2 * n) ltac:(lia)) as Hdm.
    pose proof (Z.mod_pos_bound (20 * s + n) (2 * n) ltac:(lia)) as Hm.
    split.
    + split.
      * apply Z.div_pos; lia.
      * apply Z.lt_succ_r. apply Z.div_lt_upper_bound; lia.
    + right. split; [exact Hne|]. lia.
Qed.

(** Three rows with the moods 8, 4 and 4: the average 16/3 is stored as
    5.3. *)
Lemma dashboard_avgMood_shown_witness :
  let rows := [checkin_with 8 3; checkin_with 4 3; checkin_with 4 3] in
  Forall (fun r => 0 <= or0 (mood_score r) <= 10) (rows_of (Some rows))
  /\ avgMood (fetchStats 0 0 None (Some rows) []) =j= Fin (53 # 10)
  /\ exists k : Z,
       avgMood (fetchStats 0 0 None (Some rows) [])
       = Fin (inject_Z k / inject_Z 10)
       /\ 0 <= k <= 100.
Proof.
  cbv zeta.
  assert (H : Forall (fun r => 0 <= or0 (mood_score r) <= 10)
                (rows_of (Some [checkin_with 8 3; checkin_with 4 3;
                                checkin_with 4 3])))
    by (repeat constructor; simpl; lia).
  split; [exact H|]. split; [vm_compute; reflexivity|].
  destruct (dashboard_avgMood_shown 0 0 None _ [] H) as (k & E & B & _).
  exists k. split; [exact E|exact B].
Defined.

Lemma after_answers_state (tz now : Z) (table : list CheckIn)
    (answers : list Answer) :
  forall st,
  streak (stats st) = 0 ->
  streak (stats (fold_left (receive tz now table) answers st)) = 0
  /\ checkIns (fold_left (receive tz now table) answers st)
     = if existsb is_checkIns answers then fetchCheckIns table
       else checkIns st.
Proof.
  induction answers as [|a l IH]; intros st H0; [auto|].
  cbn [fold_left existsb].
  destruct a; cbn [is_checkIns orb].
  - destruct (IH (receive tz now table st CheckInsAnswer) H0) as [I1 I2].
    split; [exact I1|]. rewrite I2. destruct (existsb _ _); reflexivity.
  - apply (IH (receive tz now table st StatsAnswer)). reflexivity.
Qed.

(** X20.  Whatever the history of check-ins, and in whatever order and
    number the answers of the two requests of the mount effect arrive, the
    streak the dashboard stores is 0, while its list of check-ins is the
    fetched one as soon as that answer has arrived; the two orders of the
    two answers leave the same state. *)
Theorem dashboard_streak_stays_0 (tz now : Z) (table : list CheckIn)
    (answers : list Answer) :
  streak (stats (after_answers tz now table answers)) = 0
  /\ checkIns (after_answers tz now table answers)
     = (if existsb is_checkIns answers then fetchCheckIns table else [])
  /\ after_answers tz now table [CheckInsAnswer; StatsAnswer]
     = after_answers tz now table [StatsAnswer; CheckInsAnswer].
Proof.
  destruct (after_answers_state tz now table answers initial eq_refl)
    as [H1 H2].
  split; [exact H1|]. split; [exact H2|]. reflexivity.
Qed.

End DashboardShown.

(** ** The trigger buttons of the check-in form *)

Section ToggleTrigger.

Import DailyCheckIn.

Lemma existsb_eqb_In (t : string) (l : list string) :
  existsb (String.eqb t) l = true <-> In t l.
Proof.
  rewrite existsb_exists. split.
  - intros (x & Hx & E). apply String.eqb_eq in E. subst. exact Hx.
  - intros H. exists t. split; [exact H|apply String.eqb_refl].
Qed.

Lemma count_occ_filter_neq (t u : string) (l : list string) :
  count_occ string_dec (filter (fun x => negb (String.eqb x t)) l) u
  = if string_dec u t then O else count_occ string_dec l u.
Proof.
  induction l as [|x l IH]; simpl; [destruct (string_dec u t); reflexivity|].
  destruct (String.eqb_spec x t) as [->|Hne]; simpl.
  - rewrite IH. destruct (string_dec t u) as [->|]; [|reflexivity].
    destruct (string_dec u u); [reflexivity|contradiction].
  - rewrite IH. destruct (string_dec x u) as [->|];
      destruct (string_dec u t); try reflexivity; contradiction.
Qed.

(** X21.  For every list of tags, toggling a tag changes the number of its
    occurrences to 0 when the list has it and to 1 when it has not, and
    leaves the number of occurrences of every other tag as it is. *)
Theorem toggleTrigger_flips (t : string) (tags : list string) (u : string) :
  count_occ string_dec (toggleTrigger t tags) u
  = if string_dec u t
    then (if existsb (String.eqb t) tags then 0 else 1)%nat
    else count_occ string_dec tags u.
Proof.
  unfold toggleTrigger. destruct (existsb (String.eqb t) tags) eqn:E.
  - apply count_occ_filter_neq.
  - rewrite count_occ_app. simpl.
    destruct (string_dec u t) as [->|Hne].
    + destruct (string_dec t t); [|contradiction].
      assert (Hn : ~ In t tags).
      { intros C. apply existsb_eqb_In in C. congruence. }
      apply (count_occ_not_In string_dec) in Hn. rewrite Hn. reflexivity.
    + destruct (string_dec t u); [congruence|]. apply Nat.add_0_r.
Qed.

Lemma filter_neq_absent (t : string) (l : list string) :
  existsb (String.eqb t) l = false ->
  filter (fun x => negb (String.eqb x t)) l = l.
Proof.
  induction l as [|x l IH]; simpl; intros H; [reflexivity|].
  apply orb_false_iff in H as [H1 H2].
  rewrite (String.eqb_sym x t), H1. simpl. rewrite IH; auto.
Qed.

(** X22.  Toggling a tag twice gives back the list when the tag was not in
    it; when it was, every occurrence is removed and the tag is put once
    at the end. *)
Theorem toggleTrigger_twice (t : string) (tags : list string) :
  toggleTrigger t (toggleTrigger t tags)
  = if existsb (String.eqb t) tags
    then filter (fun x => negb (String.eqb x t)) tags ++ [t]
    else tags.
Proof.
  unfold toggleTrigger at 2. destruct (existsb (String.eqb t) tags) eqn:E.
  - unfold toggleTrigger.
    assert (H : existsb (String.eqb t)
                  (filter (fun x => negb (String.eqb x t)) tags) = false).
    { apply not_true_is_false. intros C. apply existsb_eqb_In in C.
      apply filter_In in C as [_ C]. rewrite String.eqb_refl in C.
      discriminate. }
    rewrite H. reflexivity.
  - unfold toggleTrigger. rewrite existsb_app. simpl.
    rewrite String.eqb_refl, orb_true_r.
    rewrite filter_app. simpl. rewrite String.eqb_refl. simpl.
    rewrite app_nil_r. apply filter_neq_absent, E.
Qed.

End ToggleTrigger.
